(** * Shallow embedding of the two inventory endpoints

    [src/fixedApiEnd.py]                  : [create_product]   (POST /api/products)
    [src/low_stock_alert_APIEndpoint.py]  : [get_low_stock_alerts]
                                            (GET /api/companies/<id>/alerts/low-stock)

    Python values reaching the handlers are JSON values ([request.json]);
    Python's [float] is IEEE binary64, modelled with Rocq's primitive floats. *)

From Stdlib Require Import ZArith List String Bool Lia Floats.
Import ListNotations.

Open Scope Z_scope.

(** ** Python runtime: values, exceptions and the builtins the handlers call *)
Module Py.

#[local] Set Warnings "-register-all".

(** A value produced by [json.loads] (Flask's [request.json]); [None] is
    [JNull].  A [dict] is an association list with distinct keys. *)
Inductive json : Type :=
| JNull
| JBool (b : bool)
| JInt (z : Z)
| JFloat (f : float)
| JStr (s : string)
| JList (l : list json)
| JObj (kvs : list (string * json)).

(** The exceptions that matter to the handlers' [except] clauses. *)
Inductive exn : Type :=
| ValueError
| TypeError
| OverflowError
| ZeroDivisionError
| KeyError
| IntegrityError      (** [sqlalchemy.exc.IntegrityError] *)
| OperationalError.   (** any other database failure *)

Definition exn_eqb (a b : exn) : bool :=
  match a, b with
  | ValueError, ValueError | TypeError, TypeError
  | OverflowError, OverflowError | ZeroDivisionError, ZeroDivisionError
  | KeyError, KeyError | IntegrityError, IntegrityError
  | OperationalError, OperationalError => true
  | _, _ => false
  end.

(** Python code that may raise: a small error monad. *)
Inductive result (A : Type) : Type :=
| Ok (a : A)
| Err (e : exn).
Arguments Ok {A} a.
Arguments Err {A} e.

Definition bind {A B} (m : result A) (k : A -> result B) : result B :=
  match m with Ok a => k a | Err e => Err e end.

Notation "'let*' x ':=' m 'in' k" := (bind m (fun x => k))
  (at level 200, x name, m at level 100, right associativity).

(** Python [==] on JSON values ([float] comparison is IEEE). *)
Fixpoint json_eqb (a b : json) : bool :=
  match a, b with
  | JNull, JNull => true
  | JBool x, JBool y => Bool.eqb x y
  | JInt x, JInt y => Z.eqb x y
  | JFloat x, JFloat y => PrimFloat.eqb x y
  | JStr x, JStr y => String.eqb x y
  | JList xs, JList ys =>
      (fix go xs ys :=
         match xs, ys with
         | [], [] => true
         | x :: xs', y :: ys' => json_eqb x y && go xs' ys'
         | _, _ => false
         end) xs ys
  | JObj xs, JObj ys =>
      (fix go xs ys :=
         match xs, ys with
         | [], [] => true
         | (k, x) :: xs', (l, y) :: ys' =>
             String.eqb k l && json_eqb x y && go xs' ys'
         | _, _ => false
         end) xs ys
  | _, _ => false
  end.

(** [bool(v)], used by [not data]. *)
Definition truthy (v : json) : bool :=
  match v with
  | JNull => false
  | JBool b => b
  | JInt z => negb (Z.eqb z 0)
  | JFloat f => negb (PrimFloat.eqb f zero)
  | JStr s => negb (String.eqb s EmptyString)
  | JList l => negb (match l with [] => true | _ => false end)
  | JObj kvs => negb (match kvs with [] => true | _ => false end)
  end.

(** [sub in s] for strings. *)
Fixpoint substring_in (sub s : string) : bool :=
  String.prefix sub s ||
  match s with
  | EmptyString => false
  | String _ s' => substring_in sub s'
  end.

(** [key in container]: a dict tests its keys, a list its elements, a
    string its substrings; [int], [float], [bool] are not iterable. *)
Definition contains (key : string) (container : json) : result bool :=
  match container with
  | JObj kvs => Ok (existsb (fun kv => String.eqb key (fst kv)) kvs)
  | JList l => Ok (existsb (json_eqb (JStr key)) l)
  | JStr s => Ok (substring_in key s)
  | _ => Err TypeError
  end.

(** [all(field in data for field in fields)], short-circuiting. *)
Fixpoint all_in (fields : list string) (data : json) : result bool :=
  match fields with
  | [] => Ok true
  | f :: fs =>
      let* b := contains f data in
      if b then all_in fs data else Ok false
  end.

(** [data[key]] *)
Definition getitem (data : json) (key : string) : result json :=
  match data with
  | JObj kvs =>
      match find (fun kv => String.eqb key (fst kv)) kvs with
      | Some (_, v) => Ok v
      | None => Err KeyError
      end
  | _ => Err TypeError
  end.

(** [float(n)] for a Python [int]: correctly rounded, [OverflowError]
    when out of range. *)
Definition int_to_float (z : Z) : result float :=
  let f := SF2Prim (SpecFloat.binary_normalize prec emax z 0 false) in
  if PrimFloat.is_infinity f then Err OverflowError else Ok f.

(** [a / b] for Python [int]s: the exact quotient, correctly rounded. *)
Definition int_truediv (a b : Z) : result float :=
  let sf z := match z with
              | Z0 => S754_zero false
              | Zpos p => S754_finite false p 0
              | Zneg p => S754_finite true p 0
              end in
  if Z.eqb b 0 then Err ZeroDivisionError
  else
    let f := SF2Prim (SFdiv prec emax (sf a) (sf b)) in
    if PrimFloat.is_infinity f then Err OverflowError else Ok f.

(** [n / x] for a Python [int] [n] and [float] [x]. *)
Definition int_div_float (n : Z) (x : float) : result float :=
  let* fn := int_to_float n in
  if PrimFloat.eqb x zero then Err ZeroDivisionError
  else Ok (PrimFloat.div fn x).

(** [int(x)] for a [float] [x]: truncation toward zero. *)
Definition float_trunc (x : float) : result Z :=
  match Prim2SF x with
  | S754_zero _ => Ok 0
  | S754_infinity _ => Err OverflowError
  | S754_nan => Err ValueError
  | S754_finite s m e =>
      let mag := if Z.leb 0 e then Z.pos m * 2 ^ e else Z.pos m / 2 ^ (- e) in
      Ok (if s then - mag else mag)
  end.

Section Coercions.
(** Python's parsers of numeric string literals, [float(str)] and
    [int(str)]: [None] when the string is not a literal ([ValueError]). *)
Variable str_to_float : string -> option float.
Variable str_to_int : string -> option Z.

(** [float(v)] *)
Definition py_float (v : json) : result float :=
  match v with
  | JBool b => Ok (if b then one else zero)
  | JInt z => int_to_float z
  | JFloat f => Ok f
  | JStr s => match str_to_float s with Some f => Ok f | None => Err ValueError end
  | JNull | JList _ | JObj _ => Err TypeError
  end.

(** [int(v)] *)
Definition py_int (v : json) : result Z :=
  match v with
  | JBool b => Ok (if b then 1 else 0)
  | JInt z => Ok z
  | JFloat f => float_trunc f
  | JStr s => match str_to_int s with Some z => Ok z | None => Err ValueError end
  | JNull | JList _ | JObj _ => Err TypeError
  end.
End Coercions.

End Py.

Import Py.

(** ** [create_product] (src/fixedApiEnd.py) *)
Module Create.

Record Product := mkProduct {
  p_id : Z; p_name : json; p_sku : json; p_price : float; p_warehouse_id : json }.

Record Inventory := mkInventory {
  i_id : Z; i_product_id : Z; i_warehouse_id : json; i_quantity : Z }.

(** The committed contents of the two tables, with their id sequences. *)
Record Store := mkStore {
  products : list Product; inventories : list Inventory;
  next_product_id : Z; next_inventory_id : Z }.

(** An object handed to [db.session.add], not yet flushed. *)
Inductive Pending :=
| PProduct (name sku : json) (price : float) (warehouse_id : json)
| PInventory (product_id : Z) (warehouse_id : json) (quantity : Z).

(** [db.session]: the committed store, the open transaction's view of it,
    and the objects added since the last flush. *)
Record Session := mkSession {
  committed : Store; working : Store; pending : list Pending }.

(** The calls through which the session talks to the database. *)
Inductive DbOp := OpQuery | OpFlush | OpCommit | OpRefresh.

(** What the handler does, in order. *)
Inductive event :=
| EvQuery | EvPriceCoerced | EvAddProduct | EvFlush | EvQuantityCoerced
| EvAddInventory | EvCommit | EvRefresh | EvRollback.

Definition event_eqb (a b : event) : bool :=
  match a, b with
  | EvQuery, EvQuery | EvPriceCoerced, EvPriceCoerced
  | EvAddProduct, EvAddProduct | EvFlush, EvFlush
  | EvQuantityCoerced, EvQuantityCoerced | EvAddInventory, EvAddInventory
  | EvCommit, EvCommit | EvRefresh, EvRefresh | EvRollback, EvRollback => true
  | _, _ => false
  end.

(** Handing a row to the persistence layer: [add], [flush], [commit]. *)
Definition is_write (e : event) : bool :=
  match e with EvAddProduct | EvFlush | EvAddInventory | EvCommit => true | _ => false end.

(** The environment of one request: Python's numeric string parsers,
    the transactions of other requests committed between the SKU check and
    the write, and the database failures (connection loss, constraint
    violations other than SKU uniqueness, ...) raised by each call. *)
Record Runtime := mkRuntime {
  str_to_float : string -> option float;
  str_to_int : string -> option Z;
  concurrent : Store -> Store;
  db_fault : DbOp -> option exn }.

Inductive message :=
| MCreated (product_id : Z)       (** "Product created successfully" *)
| MMissing                        (** "Missing required fields" *)
| MSkuExists (sku : json)         (** "Product with SKU '...' already exists" *)
| MInvalidType                    (** "Invalid data type for price or initial_quantity" *)
| MIntegrity                      (** "Database integrity error. SKU might already exist." *)
| MUnexpected                     (** "An unexpected error occurred." *)
| MServerError.                   (** Flask's page for an uncaught exception *)

Record Response := mkResponse { status : Z; body : message }.

Section Handler.
Variable rt : Runtime.

(** State, error and trace threaded through the [try] block. *)
Definition M (A : Type) := Session * list event -> result A * (Session * list event).

Definition ret {A} (a : A) : M A := fun st => (Ok a, st).
Definition bindM {A B} (m : M A) (k : A -> M B) : M B :=
  fun st => match m st with
            | (Ok a, st') => k a st'
            | (Err e, st') => (Err e, st')
            end.
Definition lift {A} (r : result A) : M A := fun st => (r, st).
Definition log (e : event) : M unit :=
  fun '(s, tr) => (Ok tt, (s, tr ++ [e])).
Definition modify (f : Session -> Session) : M unit :=
  fun '(s, tr) => (Ok tt, (f s, tr)).
Definition get_session : M Session := fun '(s, tr) => (Ok s, (s, tr)).

Notation "x <- m ;; k" := (bindM m (fun x => k))
  (at level 61, m at next level, right associativity).
Notation "m ;; k" := (bindM m (fun _ => k)) (at level 61, right associativity).

Definition fault (op : DbOp) : M unit :=
  match db_fault rt op with Some e => lift (Err e) | None => ret tt end.

(** A [SELECT] violates no constraint: its failures are operational. *)
Definition read_fault (op : DbOp) : M unit :=
  match db_fault rt op with Some _ => lift (Err OperationalError) | None => ret tt end.

Definition sku_taken (st : Store) (sku : json) : bool :=
  existsb (fun p => json_eqb (p_sku p) sku) (products st).

Definition inventory_taken (st : Store) (pid : Z) (wh : json) : bool :=
  existsb (fun i => Z.eqb (i_product_id i) pid && json_eqb (i_warehouse_id i) wh)
          (inventories st).

(** Writing one pending object: the unique constraints on [Product.sku]
    and on [(Inventory.product_id, Inventory.warehouse_id)] are checked;
    the new row's id is returned. *)
Definition insert_row (st : Store) (r : Pending) : result (Store * Z) :=
  match r with
  | PProduct name sku price wh =>
      if sku_taken st sku then Err IntegrityError
      else let id := next_product_id st in
           Ok (mkStore (products st ++ [mkProduct id name sku price wh])
                       (inventories st) (id + 1) (next_inventory_id st), id)
  | PInventory pid wh q =>
      if inventory_taken st pid wh then Err IntegrityError
      else let id := next_inventory_id st in
           Ok (mkStore (products st)
                       (inventories st ++ [mkInventory id pid wh q])
                       (next_product_id st) (id + 1), id)
  end.

Fixpoint insert_rows (st : Store) (rs : list Pending) : result (Store * list Z) :=
  match rs with
  | [] => Ok (st, [])
  | r :: rs' =>
      let* p1 := insert_row st r in
      let* p2 := insert_rows (fst p1) rs' in
      Ok (fst p2, snd p1 :: snd p2)
  end.

(** [Product.query.filter_by(sku=sku).first()] (autoflush: nothing is pending). *)
Definition query_first_by_sku (sku : json) : M bool :=
  read_fault OpQuery ;; log EvQuery ;;
  s <- get_session ;; ret (sku_taken (working s) sku).

(** [db.session.add(obj)] *)
Definition session_add (r : Pending) : M unit :=
  modify (fun s => mkSession (committed s) (working s) (pending s ++ [r])) ;;
  log (match r with PProduct _ _ _ _ => EvAddProduct | PInventory _ _ _ => EvAddInventory end).

(** [db.session.flush()]: the ids given to the flushed objects. *)
Definition session_flush : M (list Z) :=
  fault OpFlush ;; log EvFlush ;;
  s <- get_session ;;
  r <- lift (insert_rows (working s) (pending s)) ;;
  modify (fun _ => mkSession (committed s) (fst r) []) ;;
  ret (snd r).

(** [db.session.commit()]: flushes what is pending, then commits. *)
Definition session_commit : M unit :=
  _ <- session_flush ;;
  fault OpCommit ;; log EvCommit ;;
  modify (fun s => mkSession (working s) (working s) []).

(** Commit expires every loaded attribute ([expire_on_commit]); reading
    [product.id] afterwards reloads the row with a [SELECT]. *)
Definition refresh_id (id : Z) : M Z :=
  read_fault OpRefresh ;; log EvRefresh ;; ret id.

(** Other requests' transactions committing between the check and the write. *)
Definition concurrent_commits : M unit :=
  modify (fun s => let c := concurrent rt (committed s) in mkSession c c (pending s)).

Definition rollback (s : Session) : Session :=
  mkSession (committed s) (committed s) [].

Definition required_fields : list string :=
  ["name"; "sku"; "price"; "warehouse_id"; "initial_quantity"]%string.

(** Lines 16-46, the body of the [try]. *)
Definition try_block (data : json) : M Response :=
  sku <- lift (getitem data "sku") ;;
  exists_ <- query_first_by_sku sku ;;
  if exists_ then
    sku' <- lift (getitem data "sku") ;; ret (mkResponse 409 (MSkuExists sku'))
  else
    concurrent_commits ;;
    name <- lift (getitem data "name") ;;
    sku <- lift (getitem data "sku") ;;
    price_v <- lift (getitem data "price") ;;
    price <- lift (py_float (str_to_float rt) price_v) ;; log EvPriceCoerced ;;
    wh <- lift (getitem data "warehouse_id") ;;
    session_add (PProduct name sku price wh) ;;
    ids <- session_flush ;;
    let product_id := hd 0 ids in
    wh' <- lift (getitem data "warehouse_id") ;;
    q_v <- lift (getitem data "initial_quantity") ;;
    q <- lift (py_int (str_to_int rt) q_v) ;; log EvQuantityCoerced ;;
    session_add (PInventory product_id wh' q) ;;
    session_commit ;;
    pid <- refresh_id product_id ;;
    ret (mkResponse 201 (MCreated pid)).

(** The response, the committed store afterwards, and the trace. *)
Record Outcome := mkOutcome { resp : Response; final : Store; trace : list event }.

(** Lines 48-57. *)
Definition handle_exn (e : exn) : Response :=
  match e with
  | ValueError | TypeError => mkResponse 400 MInvalidType
  | IntegrityError => mkResponse 409 MIntegrity
  | _ => mkResponse 500 MUnexpected
  end.

Definition run_try (data : json) (db : Store) : Outcome :=
  match try_block data (mkSession db db [], []) with
  | (Ok r, (s, tr)) => mkOutcome r (committed s) tr
  | (Err e, (s, tr)) =>
      mkOutcome (handle_exn e) (committed (rollback s)) (tr ++ [EvRollback])
  end.

(** [create_product] on the body [data] and the store [db]. *)
Definition create_product (data : json) (db : Store) : Outcome :=
  if negb (truthy data) then mkOutcome (mkResponse 400 MMissing) db []
  else
    match all_in required_fields data with
    | Err _ => mkOutcome (mkResponse 500 MServerError) db []
    | Ok false => mkOutcome (mkResponse 400 MMissing) db []
    | Ok true => run_try data db
    end.

End Handler.

(** The store with one new Product and its Inventory row, as the
    unit-of-work inserts them. *)
Definition with_rows (st : Store) (name sku : json) (price : float) (wh : json) (q : Z) : Store :=
  mkStore (products st ++ [mkProduct (next_product_id st) name sku price wh])
          (inventories st ++ [mkInventory (next_inventory_id st) (next_product_id st) wh q])
          (next_product_id st + 1) (next_inventory_id st + 1).

(** Every event satisfying [p] comes after an [e0] in the trace. *)
Fixpoint preceded_by (p : event -> bool) (e0 : event) (seen : bool) (tr : list event) : bool :=
  match tr with
  | [] => true
  | e :: tr' => (seen || negb (p e)) && preceded_by p e0 (seen || event_eqb e e0) tr'
  end.

(** The committed store after any run: untouched by the request, or with
    both of its rows. *)
Definition all_or_nothing (rt : Runtime) (db : Store) (o : Outcome) : Prop :=
  final o = db \/ final o = concurrent rt db \/
  exists name sku price wh q, final o = with_rows (concurrent rt db) name sku price wh q.

Definition commits (tr : list event) : nat := List.length (filter (event_eqb EvCommit) tr).

Definition raises_value_or_type {A} (r : result A) : Prop :=
  r = Err ValueError \/ r = Err TypeError.

(** The integrity of a store.  No two products share a SKU, as the
    unique constraint compares them. *)
Definition skus_unique (st : Store) : Prop :=
  ForallOrdPairs (fun p q => json_eqb (p_sku p) (p_sku q) = false) (products st).

(** Every inventory row references a stored product. *)
Definition refs_ok (st : Store) : Prop :=
  Forall (fun i => In (i_product_id i) (map p_id (products st))) (inventories st).

(** Every id lies below its table's sequence. *)
Definition ids_below (st : Store) : Prop :=
  Forall (fun p => p_id p < next_product_id st) (products st) /\
  Forall (fun i => i_id i < next_inventory_id st) (inventories st).

End Create.

(** ** [get_low_stock_alerts] (src/low_stock_alert_APIEndpoint.py) *)
Module Alerts.

Record Inventory := mkInventory {
  inv_id : Z; inv_product_id : Z; inv_warehouse_id : Z; inv_quantity : Z }.
Record Product := mkProduct {
  prod_id : Z; prod_name : string; prod_sku : string;
  prod_product_type_id : option Z; prod_supplier_id : option Z }.
Record Warehouse := mkWarehouse { wh_id : Z; wh_name : string; wh_company_id : Z }.
Record ProductType := mkProductType { pt_id : Z; pt_low_stock_threshold : Z }.
Record Supplier := mkSupplier { sup_id : Z; sup_name : string; sup_contact_email : string }.
(** [sale_date] as seconds since the epoch. *)
Record SalesActivity := mkSalesActivity {
  sa_product_id : Z; sa_warehouse_id : Z; sa_sale_date : Z; sa_quantity_sold : Z }.

Record DB := mkDB {
  inventory_t : list Inventory; product_t : list Product; warehouse_t : list Warehouse;
  product_type_t : list ProductType; supplier_t : list Supplier;
  sales_t : list SalesActivity }.

(** One row of the joined query, before grouping. *)
Record Row := mkRow {
  r_inv : Inventory; r_prod : Product; r_wh : Warehouse; r_pt : ProductType;
  r_sup : option Supplier; r_sale : SalesActivity }.

Definition opt_eqb (a b : option Z) : bool :=
  match a, b with
  | Some x, Some y => Z.eqb x y
  | None, None => true
  | _, _ => false
  end.

Definition recent_period_days : Z := 30.
Definition seconds_per_day : Z := 86400.

(** [.outerjoin(Supplier, Product.supplier_id == Supplier.id)] *)
Definition supplier_of (db : DB) (p : Product) : list (option Supplier) :=
  match filter (fun s => opt_eqb (prod_supplier_id p) (Some (sup_id s))) (supplier_t db) with
  | [] => [None]
  | sups => map Some sups
  end.

(** Lines 22-33: the joins. *)
Definition join_rows (db : DB) : list Row :=
  flat_map (fun i =>
  flat_map (fun p =>
    if Z.eqb (inv_product_id i) (prod_id p) then
  flat_map (fun w =>
    if Z.eqb (inv_warehouse_id i) (wh_id w) then
  flat_map (fun t =>
    if opt_eqb (prod_product_type_id p) (Some (pt_id t)) then
  flat_map (fun su =>
  flat_map (fun sa =>
    if Z.eqb (sa_product_id sa) (inv_product_id i)
       && Z.eqb (sa_warehouse_id sa) (inv_warehouse_id i)
    then [mkRow i p w t su sa] else [])
    (sales_t db))
    (supplier_of db p)
    else [])
    (product_type_t db)
    else [])
    (warehouse_t db)
    else [])
    (product_t db))
    (inventory_t db).

(** Lines 34-36: the three filters. *)
Definition keep_row (company_id since : Z) (r : Row) : bool :=
  Z.eqb (wh_company_id (r_wh r)) company_id
  && Z.leb since (sa_sale_date (r_sale r))
  && Z.leb (inv_quantity (r_inv r)) (pt_low_stock_threshold (r_pt r)).

(** Line 37: [group_by(Inventory.id, Product.id, Warehouse.id,
    ProductType.id, Supplier.id)]. *)
Definition group_key (r : Row) : Z * Z * Z * Z * option Z :=
  (inv_id (r_inv r), prod_id (r_prod r), wh_id (r_wh r), pt_id (r_pt r),
   option_map sup_id (r_sup r)).

Definition key_eqb (k1 k2 : Z * Z * Z * Z * option Z) : bool :=
  let '(a1, b1, c1, d1, e1) := k1 in
  let '(a2, b2, c2, d2, e2) := k2 in
  Z.eqb a1 a2 && Z.eqb b1 b2 && Z.eqb c1 c2 && Z.eqb d1 d2 && opt_eqb e1 e2.

(** A row joins its group, adding [quantity_sold] to the group's
    [sum(SalesActivity.quantity_sold)]; a new key opens a group. *)
Definition add_to_groups (gs : list (Row * Z)) (r : Row) : list (Row * Z) :=
  if existsb (fun g => key_eqb (group_key (fst g)) (group_key r)) gs
  then map (fun g => if key_eqb (group_key (fst g)) (group_key r)
                     then (fst g, snd g + sa_quantity_sold (r_sale r)) else g) gs
  else gs ++ [(r, sa_quantity_sold (r_sale r))].

Definition group_rows (rows : list Row) : list (Row * Z) :=
  fold_left add_to_groups rows [].

(** [low_stock_query.all()]: one [(row, total_sold)] per group. *)
Definition low_stock_query (db : DB) (company_id since : Z) : list (Row * Z) :=
  group_rows (filter (keep_row company_id since) (join_rows db)).

(** Lines 44-48. *)
Definition days_until_stockout (quantity total_sold : Z) : result (option Z) :=
  if negb (Z.eqb total_sold 0) && Z.ltb 0 total_sold then
    let* avg_daily_sales := int_truediv total_sold recent_period_days in
    if PrimFloat.ltb zero avg_daily_sales then
      let* x := int_div_float quantity avg_daily_sales in
      let* d := float_trunc x in
      Ok (Some d)
    else Ok None
  else Ok None.

Definition opt_json {A} (f : A -> json) (o : option A) : json :=
  match o with Some a => f a | None => JNull end.

(** Lines 50-64: one alert record. *)
Definition format_alert (g : Row * Z) : result json :=
  let '(r, total_sold) := g in
  let* days := days_until_stockout (inv_quantity (r_inv r)) total_sold in
  Ok (JObj [("product_id", JInt (prod_id (r_prod r)));
            ("product_name", JStr (prod_name (r_prod r)));
            ("sku", JStr (prod_sku (r_prod r)));
            ("warehouse_id", JInt (wh_id (r_wh r)));
            ("warehouse_name", JStr (wh_name (r_wh r)));
            ("current_stock", JInt (inv_quantity (r_inv r)));
            ("threshold", JInt (pt_low_stock_threshold (r_pt r)));
            ("days_until_stockout", opt_json JInt days);
            ("supplier", JObj [("id", opt_json (fun s => JInt (sup_id s)) (r_sup r));
                               ("name", opt_json (fun s => JStr (sup_name s)) (r_sup r));
                               ("contact_email",
                                  opt_json (fun s => JStr (sup_contact_email s)) (r_sup r))])
           ]%string).

(** The [for] loop appending to [alerts]; an exception ends the request. *)
Fixpoint format_all (gs : list (Row * Z)) : result (list json) :=
  match gs with
  | [] => Ok []
  | g :: gs' =>
      let* a := format_alert g in
      let* rest := format_all gs' in
      Ok (a :: rest)
  end.

(** [get_low_stock_alerts(company_id)] at time [now] (seconds). *)
Definition get_low_stock_alerts (db : DB) (company_id now : Z) : result json :=
  let activity_since_date := now - recent_period_days * seconds_per_day in
  let alerts_data := low_stock_query db company_id activity_since_date in
  let* alerts := format_all alerts_data in
  Ok (JObj [("alerts", JList alerts);
            ("total_alerts", JInt (Z.of_nat (List.length alerts)))]%string).

(** An alert record, field by field. *)
Definition alert_json (r : Row) (days : option Z) : json :=
  JObj [("product_id", JInt (prod_id (r_prod r)));
        ("product_name", JStr (prod_name (r_prod r)));
        ("sku", JStr (prod_sku (r_prod r)));
        ("warehouse_id", JInt (wh_id (r_wh r)));
        ("warehouse_name", JStr (wh_name (r_wh r)));
        ("current_stock", JInt (inv_quantity (r_inv r)));
        ("threshold", JInt (pt_low_stock_threshold (r_pt r)));
        ("days_until_stockout", opt_json JInt days);
        ("supplier", JObj [("id", opt_json (fun s => JInt (sup_id s)) (r_sup r));
                           ("name", opt_json (fun s => JStr (sup_name s)) (r_sup r));
                           ("contact_email",
                              opt_json (fun s => JStr (sup_contact_email s)) (r_sup r))])
       ]%string.

(** The contract of the alert list, in the spec's words: an inventory row of
    pair [(p, w)] in a warehouse of company [c], with stock at or below its
    product type's threshold, and a sale of [(p, w)] dated at or after
    [since]. *)
Definition low_stock_item (db : DB) (c since p w : Z) : Prop :=
  exists i pr wh t sa,
    In i (inventory_t db) /\ In pr (product_t db) /\ In wh (warehouse_t db) /\
    In t (product_type_t db) /\ In sa (sales_t db) /\
    inv_product_id i = p /\ prod_id pr = p /\ inv_warehouse_id i = w /\ wh_id wh = w /\
    prod_product_type_id pr = Some (pt_id t) /\
    wh_company_id wh = c /\ inv_quantity i <= pt_low_stock_threshold t /\
    sa_product_id sa = p /\ sa_warehouse_id sa = w /\ since <= sa_sale_date sa.

Definition alert_body (alerts : list json) : json :=
  JObj [("alerts", JList alerts); ("total_alerts", JInt (Z.of_nat (List.length alerts)))]%string.

(** [sum(SalesActivity.quantity_sold)] over the rows of [rows] whose group
    key is [k]. *)
Definition total_sold_of (rows : list Row) (k : Z * Z * Z * Z * option Z) : Z :=
  fold_right Z.add 0
    (map (fun r => sa_quantity_sold (r_sale r))
         (filter (fun r => key_eqb (group_key r) k) rows)).

End Alerts.

Import Create.

(** ** Concrete inputs *)

Definition rt0 : Runtime := mkRuntime (fun _ => None) (fun _ => None) (fun s => s) (fun _ => None).
Definition db0 : Store := mkStore [] [] 1 1.
Definition req1 : json :=
  JObj [("name", JStr "W"); ("sku", JStr "S1"); ("price", JInt 10);
        ("warehouse_id", JInt 3); ("initial_quantity", JInt 5)]%string.

Definition req_null_price : json :=
  JObj [("name", JStr "W"); ("sku", JStr "S1"); ("price", JNull);
        ("warehouse_id", JInt 3); ("initial_quantity", JInt 5)]%string.

Definition req_null_qty : json :=
  JObj [("name", JStr "W"); ("sku", JStr "S1"); ("price", JInt 10);
        ("warehouse_id", JInt 3); ("initial_quantity", JNull)]%string.

Definition db1 : Store := final (create_product rt0 req1 db0).

Definition rt_reload_fails : Runtime :=
  mkRuntime (fun _ => None) (fun _ => None) (fun s => s)
            (fun op => match op with OpRefresh => Some OperationalError | _ => None end).

Definition req2 : json :=
  JObj [("name", JStr "V"); ("sku", JStr "S2"); ("price", JInt 5);
        ("warehouse_id", JInt 3); ("initial_quantity", JInt 1)]%string.

(** A list body naming every required field. *)
Definition req_list : json :=
  JList [JStr "name"; JStr "sku"; JStr "price"; JStr "warehouse_id"; JStr "initial_quantity"]%string.

(** Another request creating SKU S1 commits between the SKU check and the
    write. *)
Definition rt_race : Runtime :=
  mkRuntime (fun _ => None) (fun _ => None) (fun s => final (create_product rt0 req1 s))
            (fun _ => None).

Import Alerts.

Definition adb (threshold q sold : Z) : DB :=
  mkDB [mkInventory 1 7 3 q] [mkProduct 7 "Widget" "W-1" (Some 2) None]
       [mkWarehouse 3 "Main" 9] [mkProductType 2 threshold]
       [] [mkSalesActivity 7 3 1000 sold].

(** A product of type 2 with supplier 4, which is stored. *)
Definition adb_sup : DB :=
  mkDB [mkInventory 1 7 3 5] [mkProduct 7 "Widget" "W-1" (Some 2) (Some 4)]
       [mkWarehouse 3 "Main" 9] [mkProductType 2 10]
       [mkSupplier 4 "Acme" "sales@acme.test"] [mkSalesActivity 7 3 1000 60].

Example t1 : resp (create_product rt0 req1 db0) = mkResponse 201 (MCreated 1).
Proof. vm_compute. reflexivity. Qed.
Example t2 : resp (create_product rt0 req1 (final (create_product rt0 req1 db0))) = mkResponse 409 (MSkuExists (JStr "S1")).
Proof. vm_compute. reflexivity. Qed.
Example t3 : resp (create_product rt0 (JInt 5) db0) = mkResponse 500 MServerError.
Proof. vm_compute. reflexivity. Qed.


Ltac unf :=
  cbv beta iota zeta delta [create_product run_try try_block bindM lift
    query_first_by_sku fault read_fault log get_session ret concurrent_commits
    modify session_add session_flush session_commit refresh_id bind all_in
    required_fields handle_exn fst snd hd] in *.

Ltac run_cases :=
  unf; simpl in *;
  repeat (match goal with
  | |- context [match ?x with _ => _ end] =>
      lazymatch x with
      | context [match _ with _ => _ end] => fail
      | _ => destruct x eqn:?
      end
  | H : context [match ?x with _ => _ end] |- _ =>
      lazymatch x with
      | context [match _ with _ => _ end] => fail
      | _ => destruct x eqn:?
      end
  end; unf; simpl in *; try discriminate).

Lemma create_product_all_or_nothing rt data db :
  all_or_nothing rt db (create_product rt data db).
Proof.
  unfold all_or_nothing; run_cases;
    first [ left; reflexivity | right; left; reflexivity
          | right; right; do 5 eexists; reflexivity ].
Qed.

(** C1: every run leaves either none or both of the request's rows
    committed; a run answering 201 committed, in its single commit,
    exactly one new Product (the next product id, with the request's name,
    SKU, coerced price and warehouse) and exactly one Inventory row whose
    product_id is that id and whose warehouse_id is the request's, and the
    response carries that id. *)
Theorem create_product_atomic_success rt data db :
  let o := create_product rt data db in
  all_or_nothing rt db o /\
  (status (resp o) = 201 ->
   exists name sku pv price wh qv q,
     getitem data "name" = Ok name /\ getitem data "sku" = Ok sku /\
     getitem data "price" = Ok pv /\ py_float (str_to_float rt) pv = Ok price /\
     getitem data "warehouse_id" = Ok wh /\
     getitem data "initial_quantity" = Ok qv /\ py_int (str_to_int rt) qv = Ok q /\
     final o = with_rows (concurrent rt db) name sku price wh q /\
     body (resp o) = MCreated (next_product_id (concurrent rt db)) /\
     commits (trace o) = 1%nat).
Proof.
  split; [apply create_product_all_or_nothing |].
  intro H; run_cases.
  do 7 eexists; repeat split; eassumption || reflexivity.
Qed.

Lemma create_product_atomic_success_witness :
  status (resp (create_product rt0 req1 db0)) = 201 /\
  exists name sku pv price wh qv q,
     getitem req1 "name" = Ok name /\ getitem req1 "sku" = Ok sku /\
     getitem req1 "price" = Ok pv /\ py_float (str_to_float rt0) pv = Ok price /\
     getitem req1 "warehouse_id" = Ok wh /\
     getitem req1 "initial_quantity" = Ok qv /\ py_int (str_to_int rt0) qv = Ok q /\
     final (create_product rt0 req1 db0) = with_rows (concurrent rt0 db0) name sku price wh q /\
     body (resp (create_product rt0 req1 db0)) = MCreated (next_product_id (concurrent rt0 db0)) /\
     commits (trace (create_product rt0 req1 db0)) = 1%nat.
Proof.
  assert (H : status (resp (create_product rt0 req1 db0)) = 201) by (vm_compute; reflexivity).
  split; [exact H | exact (proj2 (create_product_atomic_success rt0 req1 db0) H)].
Defined.

Lemma all_in_obj fields kvs :
  all_in fields (JObj kvs) =
  Ok (forallb (fun f => existsb (fun kv : string * json => String.eqb f (fst kv)) kvs) fields).
Proof.
  induction fields as [| f fs IH]; simpl; [reflexivity |].
  destruct (existsb _ kvs); simpl; [exact IH | reflexivity].
Qed.

Lemma key_present f (kvs : list (string * json)) :
  In f (map fst kvs) -> existsb (fun kv => String.eqb f (fst kv)) kvs = true.
Proof.
  intro H; apply existsb_exists.
  apply in_map_iff in H as [[k v] [<- Hin]].
  exists (k, v); split; [exact Hin | apply String.eqb_refl].
Qed.

(** A dict body lacking one of the required keys is answered 400 before
    the database is touched. *)
Lemma create_product_missing_key rt (kvs : list (string * json)) db f :
  In f required_fields -> ~ In f (map fst kvs) ->
  create_product rt (JObj kvs) db = mkOutcome (mkResponse 400 MMissing) db [].
Proof.
  intros Hf Hnot.
  assert (Hall : forallb (fun f => existsb (fun kv : string * json => String.eqb f (fst kv)) kvs)
                   required_fields = false).
  { destruct (forallb _ _) eqn:E; [| reflexivity].
    exfalso; apply Hnot.
    rewrite forallb_forall in E; specialize (E f Hf).
    apply existsb_exists in E as [[k v] [Hin Heq]].
    apply String.eqb_eq in Heq; simpl in Heq; subst.
    apply in_map_iff; exists (k, v); auto. }
  unfold create_product; rewrite all_in_obj, Hall.
  destruct (negb (truthy (JObj kvs))); reflexivity.
Qed.

(** The try block never answers "Missing required fields". *)
Lemma run_try_not_missing rt data db : body (resp (run_try rt data db)) <> MMissing.
Proof. run_cases; discriminate. Qed.

Lemma find_existsb {A} (p : A -> bool) l :
  existsb p l = true -> exists x, find p l = Some x.
Proof.
  induction l as [| x l IH]; simpl; [discriminate |].
  destruct (p x); simpl; eauto.
Qed.

(** Once [data['sku']] succeeded and the key check passed, [data] is a dict
    and every required key can be read. *)
Lemma getitem_required data sku f :
  getitem data "sku" = Ok sku -> all_in required_fields data = Ok true ->
  In f required_fields -> exists v, getitem data f = Ok v.
Proof.
  intros Hs Hall Hf.
  destruct data as [| | | | | | kvs]; try discriminate Hs.
  rewrite all_in_obj in Hall.
  pose proof (f_equal (fun r => match r with Ok b => b | Err _ => false end) Hall) as Hb.
  cbv beta iota in Hb.
  rewrite forallb_forall in Hb.
  destruct (find_existsb _ _ (Hb f Hf)) as [[k v] Hfind].
  simpl; rewrite Hfind.
  eauto.
Qed.

Ltac read_fields Hs Ha :=
  let get f := (let v := fresh "v" in let Hv := fresh "Hv" in
                destruct (getitem_required _ _ f Hs Ha) as [v Hv];
                [simpl; tauto | rewrite ?Hv]) in
  get "name"%string; get "price"%string; get "warehouse_id"%string;
  get "initial_quantity"%string; rewrite ?Hs.

(** C10: the required-field check looks at keys only.  For a dict body
    holding all five keys, whatever their values (a [null] included), the
    handler runs the [try] block (the SKU lookup and the coercions) and
    never answers "Missing required fields". *)
Theorem create_product_presence_only rt (kvs : list (string * json)) db :
  Forall (fun f => In f (map fst kvs)) required_fields ->
  create_product rt (JObj kvs) db = run_try rt (JObj kvs) db /\
  body (resp (create_product rt (JObj kvs) db)) <> MMissing.
Proof.
  intro Hall.
  assert (Heq : create_product rt (JObj kvs) db = run_try rt (JObj kvs) db).
  { unfold create_product; rewrite all_in_obj.
    assert (Hb : forallb (fun f => existsb (fun kv : string * json => String.eqb f (fst kv)) kvs)
                   required_fields = true).
    { apply forallb_forall; intros f Hf.
      apply key_present; rewrite Forall_forall in Hall; auto. }
    rewrite Hb.
    destruct kvs as [| kv kvs'].
    - inversion Hall as [| ? ? Hn]; contradiction.
    - reflexivity. }
  split; [exact Heq | rewrite Heq; apply run_try_not_missing].
Qed.

Lemma create_product_presence_only_witness :
  Forall (fun f => In f (map fst [("name", JStr "W"); ("sku", JStr "S1"); ("price", JNull);
        ("warehouse_id", JInt 3); ("initial_quantity", JInt 5)]%string)) required_fields /\
  create_product rt0 req_null_price db0 = run_try rt0 req_null_price db0 /\
  body (resp (create_product rt0 req_null_price db0)) <> MMissing.
Proof.
  assert (H : Forall (fun f => In f (map fst [("name", JStr "W"); ("sku", JStr "S1"); ("price", JNull);
        ("warehouse_id", JInt 3); ("initial_quantity", JInt 5)]%string)) required_fields).
  { unfold required_fields; repeat (apply Forall_cons; [simpl; auto 10 |]); apply Forall_nil. }
  split; [exact H | exact (create_product_presence_only rt0 _ db0 H)].
Defined.

(** C4: a SKU already stored is answered 409 with nothing written, whether
    the pre-insert lookup finds it, or a concurrent request stored it after
    that lookup and the flush of the new Product violates the uniqueness
    constraint; more generally every 409 leaves no row of the request. *)
Theorem create_product_duplicate_sku rt data db sku :
  truthy data = true -> all_in required_fields data = Ok true ->
  getitem data "sku" = Ok sku -> db_fault rt OpQuery = None ->
  (sku_taken db sku = true ->
     resp (create_product rt data db) = mkResponse 409 (MSkuExists sku) /\
     final (create_product rt data db) = db) /\
  (sku_taken db sku = false -> sku_taken (concurrent rt db) sku = true ->
     db_fault rt OpFlush = None ->
     (exists pv price, getitem data "price" = Ok pv /\ py_float (str_to_float rt) pv = Ok price) ->
     resp (create_product rt data db) = mkResponse 409 MIntegrity /\
     final (create_product rt data db) = concurrent rt db) /\
  (status (resp (create_product rt data db)) = 409 ->
     final (create_product rt data db) = db \/
     final (create_product rt data db) = concurrent rt db).
Proof.
  intros Ht Ha Hs Hq.
  unfold create_product; rewrite Ht, Ha; cbn [negb].
  unf; read_fields Hs Ha.
  run_cases;
  repeat split; intros;
  repeat match goal with H : exists _, _ |- _ => destruct H end;
  repeat match goal with H : _ /\ _ |- _ => destruct H end;
  first [ reflexivity | left; reflexivity | right; reflexivity | congruence ].
Qed.

Lemma create_product_duplicate_sku_witness :
  truthy req1 = true /\ all_in required_fields req1 = Ok true /\
  getitem req1 "sku" = Ok (JStr "S1") /\ db_fault rt0 OpQuery = None /\
  sku_taken db1 (JStr "S1") = true /\
  resp (create_product rt0 req1 db1) = mkResponse 409 (MSkuExists (JStr "S1")) /\
  final (create_product rt0 req1 db1) = db1.
Proof.
  assert (H1 : truthy req1 = true) by reflexivity.
  assert (H2 : all_in required_fields req1 = Ok true) by (vm_compute; reflexivity).
  assert (H3 : getitem req1 "sku" = Ok (JStr "S1")) by (vm_compute; reflexivity).
  assert (H4 : db_fault rt0 OpQuery = None) by reflexivity.
  assert (H5 : sku_taken db1 (JStr "S1") = true) by (vm_compute; reflexivity).
  destruct (create_product_duplicate_sku rt0 req1 db1 (JStr "S1") H1 H2 H3 H4) as [Ha _].
  repeat split; try assumption; apply Ha; exact H5.
Defined.

(** C5, as stated: every write (add, flush, commit) comes after both
    numeric fields were coerced.  False: with [initial_quantity = null]
    the Product is added and flushed before [int(None)] raises. *)
Lemma create_product_writes_after_coercion_counterexample :
  ~ (forall rt data db,
       let tr := trace (create_product rt data db) in
       preceded_by is_write EvPriceCoerced false tr = true /\
       preceded_by is_write EvQuantityCoerced false tr = true).
Proof.
  intro H. destruct (H rt0 req_null_qty db0) as [_ Hq].
  vm_compute in Hq. discriminate.
Qed.

Example req_null_qty_trace :
  trace (create_product rt0 req_null_qty db0) =
  [EvQuery; EvPriceCoerced; EvAddProduct; EvFlush; EvRollback].
Proof. vm_compute. reflexivity. Qed.

(** C5 (amended): the key check and the price coercion come before any
    write.  The initial_quantity coercion comes after the Product was added
    and flushed, and before the Inventory is added and before the commit.
    When that coercion fails, with any exception, nothing is committed and
    no row of the request is left: the run stopped at one of the steps up
    to the flush, and a run that reached the flush ends in the rollback.
    A 400 answer leaves no row of the request either. *)
Theorem create_product_validation_order rt data db :
  let o := create_product rt data db in
  preceded_by is_write EvPriceCoerced false (trace o) = true /\
  preceded_by (fun e => event_eqb e EvAddInventory || event_eqb e EvCommit)
              EvQuantityCoerced false (trace o) = true /\
  preceded_by (event_eqb EvQuantityCoerced) EvAddProduct false (trace o) = true /\
  preceded_by (event_eqb EvQuantityCoerced) EvFlush false (trace o) = true /\
  (forall qv e, getitem data "initial_quantity" = Ok qv -> py_int (str_to_int rt) qv = Err e ->
     (final o = db \/ final o = concurrent rt db) /\
     (trace o = [EvQuery; EvPriceCoerced; EvAddProduct; EvFlush; EvRollback] \/
      exists n, (n < 4)%nat /\
        (trace o = firstn n [EvQuery; EvPriceCoerced; EvAddProduct; EvFlush] \/
         trace o = firstn n [EvQuery; EvPriceCoerced; EvAddProduct; EvFlush] ++ [EvRollback]))) /\
  (status (resp o) = 400 -> final o = db \/ final o = concurrent rt db).
Proof.
  run_cases; repeat split; intros;
  first [ reflexivity | left; reflexivity | right; reflexivity | discriminate | congruence
        | right; exists 0%nat; split; [lia | first [left; reflexivity | right; reflexivity]]
        | right; exists 1%nat; split; [lia | first [left; reflexivity | right; reflexivity]]
        | right; exists 2%nat; split; [lia | first [left; reflexivity | right; reflexivity]]
        | right; exists 3%nat; split; [lia | first [left; reflexivity | right; reflexivity]] ].
Qed.

(** C6, as stated: a price that cannot be coerced yields 400.  False: the
    SKU lookup runs first, so a stored SKU with [price = null] is
    answered 409. *)
Lemma create_product_invalid_number_counterexample :
  ~ (forall rt data db pv,
       getitem data "price" = Ok pv -> raises_value_or_type (py_float (str_to_float rt) pv) ->
       status (resp (create_product rt data db)) = 400).
Proof.
  intro H.
  assert (Hc : status (resp (create_product rt0 req_null_price db1)) = 400).
  { apply (H rt0 req_null_price db1 JNull); [vm_compute; reflexivity | right; reflexivity]. }
  vm_compute in Hc. discriminate.
Qed.

(** C6 (amended): when the pre-insert lookup raises nothing and does not
    find the SKU, a price whose [float()] raises ValueError or TypeError is
    answered 400 and the rollback leaves no row of the request, whatever
    happens later in the database (the coercion runs before any flush).  A
    coercible price with an initial_quantity whose [int()] raises
    ValueError or TypeError is answered 400 with no row of the request
    when, in addition, the flush of the Product raises nothing and the SKU
    is still free at that flush. *)
Theorem create_product_invalid_number rt data db sku pv qv :
  truthy data = true -> all_in required_fields data = Ok true ->
  getitem data "sku" = Ok sku -> getitem data "price" = Ok pv ->
  getitem data "initial_quantity" = Ok qv ->
  db_fault rt OpQuery = None -> sku_taken db sku = false ->
  raises_value_or_type (py_float (str_to_float rt) pv) \/
  ((exists p, py_float (str_to_float rt) pv = Ok p) /\
   db_fault rt OpFlush = None /\ sku_taken (concurrent rt db) sku = false /\
   raises_value_or_type (py_int (str_to_int rt) qv)) ->
  resp (create_product rt data db) = mkResponse 400 MInvalidType /\
  final (create_product rt data db) = concurrent rt db.
Proof.
  intros Ht Ha Hs Hp Hqv Hq Hdb Hbad.
  unfold create_product; rewrite Ht, Ha; cbn [negb].
  unf; read_fields Hs Ha.
  unfold raises_value_or_type in Hbad.
  destruct Hbad as [Hbad | [[p Hpok] [Hf [Hdb' Hbad]]]]; destruct Hbad as [Hbad | Hbad];
  run_cases; first [ split; reflexivity | congruence ].
Qed.

Lemma create_product_invalid_number_witness :
  resp (create_product rt_race req_null_price db0) = mkResponse 400 MInvalidType /\
  final (create_product rt_race req_null_price db0) = concurrent rt_race db0.
Proof.
  apply (create_product_invalid_number rt_race req_null_price db0 (JStr "S1") JNull (JInt 5));
    try (vm_compute; reflexivity).
  left; right; reflexivity.
Defined.

(** C7 fails on a JSON body that is a number: [not data] is false and
    ['name' in 5] raises TypeError outside the [try], which Flask answers
    with 500 (nothing is written). *)
Theorem create_product_int_body rt db :
  create_product rt (JInt 5) db = mkOutcome (mkResponse 500 MServerError) db [].
Proof. reflexivity. Qed.

(** Any 500 "An unexpected error occurred." carries no detail of the
    exception, and leaves no row of the request committed, except when the
    failure is the reload of [product.id] after the commit. *)
Lemma create_product_unexpected_error rt data db :
  let o := create_product rt data db in
  status (resp o) = 500 ->
  body (resp o) = MServerError \/
  (body (resp o) = MUnexpected /\
   (final o = db \/ final o = concurrent rt db \/
    (db_fault rt OpRefresh <> None /\ commits (trace o) = 1%nat))).
Proof.
  cbv zeta; intro H; run_cases;
  first [ left; reflexivity
        | right; split; [reflexivity |];
          first [ left; reflexivity | right; left; reflexivity
                | right; right; split; [congruence | reflexivity] ] ].
Qed.

(** C8 fails when the database fails after the commit, on the [SELECT]
    that reloads the expired [product.id] for the response: the handler
    answers 500 and rolls back, but both rows are already committed. *)
Theorem create_product_failure_after_commit :
  let o := create_product rt_reload_fails req1 db0 in
  resp o = mkResponse 500 MUnexpected /\
  List.length (products (final o)) = 1%nat /\
  List.length (inventories (final o)) = 1%nat /\
  trace o = [EvQuery; EvPriceCoerced; EvAddProduct; EvFlush; EvQuantityCoerced;
             EvAddInventory; EvFlush; EvCommit; EvRollback].
Proof. vm_compute. repeat split; reflexivity. Qed.

Example alerts_5_60 :
  get_low_stock_alerts (adb 10 5 60) 9 1000 =
  Ok (JObj [("alerts", JList [JObj [("product_id", JInt 7); ("product_name", JStr "Widget");
     ("sku", JStr "W-1"); ("warehouse_id", JInt 3); ("warehouse_name", JStr "Main");
     ("current_stock", JInt 5); ("threshold", JInt 10); ("days_until_stockout", JInt 2);
     ("supplier", JObj [("id", JNull); ("name", JNull); ("contact_email", JNull)])]]);
     ("total_alerts", JInt 1)])%string.
Proof. vm_compute. reflexivity. Qed.

Lemma opt_eqb_eq a b : opt_eqb a b = true <-> a = b.
Proof.
  destruct a, b; simpl; split; intro H; try discriminate; try reflexivity.
  - f_equal; apply Z.eqb_eq; exact H.
  - injection H as ->; apply Z.eqb_refl.
Qed.

Lemma key_eqb_eq k1 k2 : key_eqb k1 k2 = true -> k1 = k2.
Proof.
  destruct k1 as [[[[a1 b1] c1] d1] e1], k2 as [[[[a2 b2] c2] d2] e2]; simpl.
  intro H; repeat rewrite andb_true_iff in H.
  destruct H as [[[[Ha Hb] Hc] Hd] He].
  apply Z.eqb_eq in Ha, Hb, Hc, Hd; apply opt_eqb_eq in He; subst; reflexivity.
Qed.

Lemma add_to_groups_origin gs r g :
  In g (add_to_groups gs r) -> In (fst g) (map fst gs) \/ fst g = r.
Proof.
  unfold add_to_groups; destruct (existsb _ gs).
  - intro H; apply in_map_iff in H as [g0 [<- Hin]].
    left; destruct (key_eqb _ _); simpl; apply in_map; exact Hin.
  - intro H; apply in_app_or in H as [H | [<- | []]].
    + left; apply in_map; exact H.
    + right; reflexivity.
Qed.

Lemma add_to_groups_keeps gs r x :
  In x (map fst gs) -> In x (map fst (add_to_groups gs r)).
Proof.
  unfold add_to_groups; destruct (existsb _ gs); intro H.
  - rewrite map_map.
    replace (map (fun g => fst (if key_eqb (group_key (fst g)) (group_key r)
                                 then (fst g, snd g + sa_quantity_sold (r_sale r)) else g)) gs)
      with (map fst gs); [exact H |].
    apply map_ext; intro g; destruct (key_eqb _ _); reflexivity.
  - rewrite map_app; apply in_or_app; left; exact H.
Qed.

Lemma add_to_groups_has gs r :
  exists x, In x (map fst (add_to_groups gs r)) /\ group_key x = group_key r.
Proof.
  destruct (existsb (fun g => key_eqb (group_key (fst g)) (group_key r)) gs) eqn:E.
  - apply existsb_exists in E as [g [Hin Hk]].
    exists (fst g); split; [apply add_to_groups_keeps, in_map, Hin | apply key_eqb_eq, Hk].
  - exists r; split; [| reflexivity].
    unfold add_to_groups; rewrite E, map_app; apply in_or_app; right; left; reflexivity.
Qed.

Lemma fold_groups_origin rows acc g :
  In g (fold_left add_to_groups rows acc) -> In (fst g) (map fst acc) \/ In (fst g) rows.
Proof.
  revert acc; induction rows as [| r rows IH]; simpl; intros acc H; [left; apply in_map; exact H |].
  destruct (IH _ H) as [H1 | H1]; [| right; right; exact H1].
  apply in_map_iff in H1 as [g0 [Heq Hin]].
  destruct (add_to_groups_origin _ _ _ Hin) as [H2 | H2]; rewrite Heq in H2.
  - left; exact H2.
  - right; left; symmetry; exact H2.
Qed.

Lemma fold_groups_keeps rows acc x :
  In x (map fst acc) -> In x (map fst (fold_left add_to_groups rows acc)).
Proof.
  revert acc; induction rows as [| r rows IH]; simpl; intros acc H; [exact H |].
  apply IH, add_to_groups_keeps, H.
Qed.

Lemma fold_groups_has rows acc r :
  In r rows ->
  exists x, In x (map fst (fold_left add_to_groups rows acc)) /\ group_key x = group_key r.
Proof.
  revert acc; induction rows as [| r0 rows IH]; simpl; intros acc H; [contradiction |].
  destruct H as [<- | H]; [| apply IH, H].
  destruct (add_to_groups_has acc r0) as [x [Hx Hk]].
  exists x; split; [apply fold_groups_keeps, Hx | exact Hk].
Qed.

(** The groups are represented by rows of the query, and every row of the
    query has its group. *)
Lemma group_rows_spec rows :
  (forall g, In g (group_rows rows) -> In (fst g) rows) /\
  (forall r, In r rows ->
     exists g, In g (group_rows rows) /\ group_key (fst g) = group_key r).
Proof.
  split.
  - intros g H; destruct (fold_groups_origin _ _ _ H) as [[] | H1]; exact H1.
  - intros r H; destruct (fold_groups_has rows [] r H) as [x [Hx Hk]].
    apply in_map_iff in Hx as [g [<- Hg]]; eauto.
Qed.

Lemma join_rows_spec db r :
  In r (join_rows db) <->
  exists i p w t su sa,
    r = mkRow i p w t su sa /\
    In i (inventory_t db) /\ In p (product_t db) /\ inv_product_id i = prod_id p /\
    In w (warehouse_t db) /\ inv_warehouse_id i = wh_id w /\
    In t (product_type_t db) /\ prod_product_type_id p = Some (pt_id t) /\
    In su (supplier_of db p) /\
    In sa (sales_t db) /\ sa_product_id sa = inv_product_id i /\
    sa_warehouse_id sa = inv_warehouse_id i.
Proof.
  unfold join_rows; split.
  - intro H.
    apply in_flat_map in H as [i [Hi H]].
    apply in_flat_map in H as [p [Hp H]].
    destruct (Z.eqb (inv_product_id i) (prod_id p)) eqn:E1; [| contradiction].
    apply in_flat_map in H as [w [Hw H]].
    destruct (Z.eqb (inv_warehouse_id i) (wh_id w)) eqn:E2; [| contradiction].
    apply in_flat_map in H as [t [Ht H]].
    destruct (opt_eqb (prod_product_type_id p) (Some (pt_id t))) eqn:E3; [| contradiction].
    apply in_flat_map in H as [su [Hsu H]].
    apply in_flat_map in H as [sa [Hsa H]].
    destruct (Z.eqb (sa_product_id sa) (inv_product_id i)
              && Z.eqb (sa_warehouse_id sa) (inv_warehouse_id i)) eqn:E4;
      [| contradiction].
    destruct H as [<- | []].
    apply andb_true_iff in E4 as [E4 E5].
    apply Z.eqb_eq in E1, E2, E4, E5; apply opt_eqb_eq in E3.
    exists i, p, w, t, su, sa; repeat split; assumption.
  - intros (i & p & w & t & su & sa & -> & Hi & Hp & E1 & Hw & E2 & Ht & E3 & Hsu & Hsa & E4 & E5).
    apply in_flat_map; exists i; split; [exact Hi |].
    apply in_flat_map; exists p; split; [exact Hp |].
    rewrite (proj2 (Z.eqb_eq _ _) E1).
    apply in_flat_map; exists w; split; [exact Hw |].
    rewrite (proj2 (Z.eqb_eq _ _) E2).
    apply in_flat_map; exists t; split; [exact Ht |].
    rewrite (proj2 (opt_eqb_eq _ _) E3).
    apply in_flat_map; exists su; split; [exact Hsu |].
    apply in_flat_map; exists sa; split; [exact Hsa |].
    rewrite (proj2 (Z.eqb_eq _ _) E4), (proj2 (Z.eqb_eq _ _) E5).
    left; reflexivity.
Qed.

Lemma supplier_of_nonempty db p : exists su, In su (supplier_of db p).
Proof.
  unfold supplier_of; destruct (filter _ _) as [| s ss].
  - exists None; left; reflexivity.
  - exists (Some s); left; reflexivity.
Qed.

(** Without a [supplier_id] the outer join yields no supplier. *)
Lemma supplier_of_none db p :
  prod_supplier_id p = None -> supplier_of db p = [None].
Proof.
  intro H; unfold supplier_of; rewrite H.
  induction (supplier_t db) as [| s ss IH]; simpl; [reflexivity | exact IH].
Qed.

Lemma format_all_forall2 gs alerts :
  format_all gs = Ok alerts -> Forall2 (fun g a => format_alert g = Ok a) gs alerts.
Proof.
  revert alerts; induction gs as [| g gs IH]; simpl; intros alerts H.
  - injection H as <-; constructor.
  - destruct (format_alert g) eqn:E1; simpl in H; [| discriminate].
    destruct (format_all gs) eqn:E2; simpl in H; [| discriminate].
    injection H as <-; constructor; [exact E1 | apply IH; reflexivity].
Qed.

Lemma Forall2_in_r {A B} (R : A -> B -> Prop) xs ys y :
  Forall2 R xs ys -> In y ys -> exists x, In x xs /\ R x y.
Proof.
  induction 1 as [| x y' xs ys Hr _ IH]; intro Hin; [contradiction |].
  destruct Hin as [<- | H].
  - exists x; split; [left; reflexivity | exact Hr].
  - destruct (IH H) as [x0 [Hin Hr0]]; exists x0; split; [right; exact Hin | exact Hr0].
Qed.

Lemma Forall2_in_l {A B} (R : A -> B -> Prop) xs ys x :
  Forall2 R xs ys -> In x xs -> exists y, In y ys /\ R x y.
Proof.
  induction 1 as [| x' y xs ys Hr _ IH]; intro Hin; [contradiction |].
  destruct Hin as [<- | H].
  - exists y; split; [left; reflexivity | exact Hr].
  - destruct (IH H) as [y0 [Hin Hr0]]; exists y0; split; [right; exact Hin | exact Hr0].
Qed.

Lemma format_alert_shape r t a :
  format_alert (r, t) = Ok a ->
  exists days, days_until_stockout (inv_quantity (r_inv r)) t = Ok days /\ a = alert_json r days.
Proof.
  unfold format_alert; simpl.
  destruct (days_until_stockout _ _) as [d |] eqn:E; simpl; [| discriminate].
  intro H; injection H as <-; exists d; split; reflexivity.
Qed.

(** C2: a product/warehouse pair is in the alert list exactly when the
    warehouse belongs to the requested company, the stock is at or below
    the product type's threshold, and the pair has a sale in the 30 days
    before [now]; so an item without recent sales, or of another company's
    warehouse, never appears. *)
Theorem low_stock_alerts_membership db c now body :
  get_low_stock_alerts db c now = Ok body ->
  exists alerts, body = alert_body alerts /\
  forall p w,
    (exists a, In a alerts /\ getitem a "product_id" = Ok (JInt p) /\
               getitem a "warehouse_id" = Ok (JInt w)) <->
    low_stock_item db c (now - recent_period_days * seconds_per_day) p w.
Proof.
  unfold get_low_stock_alerts; cbv zeta.
  set (since := now - recent_period_days * seconds_per_day).
  destruct (format_all _) as [alerts |] eqn:Hf; simpl; [| discriminate].
  intro H; injection H as <-.
  exists alerts; split; [reflexivity |].
  apply format_all_forall2 in Hf.
  destruct (group_rows_spec (filter (keep_row c since) (join_rows db))) as [Hg1 Hg2].
  intros p w; split.
  - intros (a & Ha & Hp & Hw).
    destruct (Forall2_in_r _ _ _ _ Hf Ha) as [[r t] [Hgin Hfmt]].
    apply format_alert_shape in Hfmt as [d [_ ->]].
    simpl in Hp, Hw; injection Hp as <-; injection Hw as <-.
    apply Hg1 in Hgin; simpl in Hgin.
    apply filter_In in Hgin as [Hj Hk].
    apply join_rows_spec in Hj
      as (i & pr & wh & pt & su & sa & -> & Hi & Hpr & E1 & Hwh & E2 & Ht & E3 & _ & Hsa & E4 & E5).
    unfold keep_row in Hk; simpl in Hk.
    repeat rewrite andb_true_iff in Hk; destruct Hk as [[Hc Hd] Hq].
    apply Z.eqb_eq in Hc; apply Z.leb_le in Hd, Hq.
    exists i, pr, wh, pt, sa; simpl; repeat split; try assumption; congruence.
  - intros (i & pr & wh & pt & sa & Hi & Hpr & Hwh & Ht & Hsa & E1 & E2 & E3 & E4 & E5 &
            Hc & Hq & E6 & E7 & Hd).
    destruct (supplier_of_nonempty db pr) as [su Hsu].
    set (r := mkRow i pr wh pt su sa).
    assert (Hr : In r (filter (keep_row c since) (join_rows db))).
    { apply filter_In; split.
      - apply join_rows_spec.
        exists i, pr, wh, pt, su, sa; repeat split; try assumption; congruence.
      - unfold keep_row; simpl.
        rewrite (proj2 (Z.eqb_eq _ _) Hc), (proj2 (Z.leb_le _ _) Hd),
                (proj2 (Z.leb_le _ _) Hq); reflexivity. }
    destruct (Hg2 r Hr) as [[r' t] [Hgin Hkey]].
    destruct (Forall2_in_l _ _ _ _ Hf Hgin) as [a [Ha Hfmt]].
    apply format_alert_shape in Hfmt as [d [_ ->]].
    exists (alert_json r' d); split; [exact Ha |].
    unfold group_key in Hkey; simpl in Hkey.
    injection Hkey; intros _ _ Hw Hp _.
    simpl; rewrite Hp, Hw; subst r; simpl; split; congruence.
Qed.

Lemma low_stock_alerts_membership_witness :
  exists body, get_low_stock_alerts (adb 10 5 60) 9 1000 = Ok body /\
  exists alerts, body = alert_body alerts /\
  forall p w,
    (exists a, In a alerts /\ getitem a "product_id" = Ok (JInt p) /\
               getitem a "warehouse_id" = Ok (JInt w)) <->
    low_stock_item (adb 10 5 60) 9 (1000 - recent_period_days * seconds_per_day) p w.
Proof.
  destruct (get_low_stock_alerts (adb 10 5 60) 9 1000) as [body |] eqn:E.
  - exists body; split; [reflexivity | exact (low_stock_alerts_membership _ _ _ _ E)].
  - vm_compute in E; discriminate.
Defined.

Lemma Forall2_strengthen {A B} (R R' : A -> B -> Prop) xs ys :
  Forall2 R xs ys -> (forall x y, In x xs -> R x y -> R' x y) -> Forall2 R' xs ys.
Proof.
  induction 1 as [| x y xs ys Hr _ IH]; intro Himp; constructor.
  - apply Himp; [left; reflexivity | exact Hr].
  - apply IH; intros x' y' Hin; apply Himp; right; exact Hin.
Qed.

(** C9: the response is [{alerts, total_alerts}] with every group's alert
    (no pagination: one record per group of the query, in order) and
    [total_alerts] the length of the list; each record has the product and
    warehouse identities, names, SKU, stock, threshold, the nullable
    days_until_stockout and the supplier sub-object, all of whose fields
    are null when the product has no supplier. *)
Theorem low_stock_alerts_response db c now body :
  get_low_stock_alerts db c now = Ok body ->
  let groups := low_stock_query db c (now - recent_period_days * seconds_per_day) in
  exists alerts,
    body = JObj [("alerts", JList alerts);
                 ("total_alerts", JInt (Z.of_nat (List.length alerts)))]%string /\
    List.length alerts = List.length groups /\
    Forall2 (fun g a =>
      exists days,
        days_until_stockout (inv_quantity (r_inv (fst g))) (snd g) = Ok days /\
        a = alert_json (fst g) days /\
        (prod_supplier_id (r_prod (fst g)) = None ->
         getitem a "supplier" =
           Ok (JObj [("id", JNull); ("name", JNull); ("contact_email", JNull)]%string)))
      groups alerts.
Proof.
  unfold get_low_stock_alerts; cbv zeta.
  destruct (format_all _) as [alerts |] eqn:Hf; simpl; [| discriminate].
  intro H; injection H as <-.
  apply format_all_forall2 in Hf.
  exists alerts; split; [reflexivity |]; split; [symmetry; eapply Forall2_length; exact Hf |].
  apply (Forall2_strengthen _ _ _ _ Hf).
  intros [r t] a Hin Hfmt.
  apply format_alert_shape in Hfmt as [d [Hd ->]].
  exists d; split; [exact Hd |]; split; [reflexivity |].
  intro Hnone.
  destruct (group_rows_spec (filter (keep_row c (now - recent_period_days * seconds_per_day))
                                    (join_rows db))) as [Hg1 _].
  apply Hg1 in Hin; simpl in Hin; apply filter_In in Hin as [Hj _].
  apply join_rows_spec in Hj as (i & pr & wh & pt & su & sa & -> & _ & _ & _ & _ & _ & _ & _ & Hsu & _).
  simpl in Hnone; rewrite (supplier_of_none db pr Hnone) in Hsu.
  destruct Hsu as [<- | []]; reflexivity.
Qed.

Lemma low_stock_alerts_response_witness :
  exists body, get_low_stock_alerts (adb 10 5 60) 9 1000 = Ok body /\
  let groups := low_stock_query (adb 10 5 60) 9 (1000 - recent_period_days * seconds_per_day) in
  exists alerts,
    body = JObj [("alerts", JList alerts);
                 ("total_alerts", JInt (Z.of_nat (List.length alerts)))]%string /\
    List.length alerts = List.length groups /\
    Forall2 (fun g a =>
      exists days,
        days_until_stockout (inv_quantity (r_inv (fst g))) (snd g) = Ok days /\
        a = alert_json (fst g) days /\
        (prod_supplier_id (r_prod (fst g)) = None ->
         getitem a "supplier" =
           Ok (JObj [("id", JNull); ("name", JNull); ("contact_email", JNull)]%string)))
      groups alerts.
Proof.
  destruct (get_low_stock_alerts (adb 10 5 60) 9 1000) as [body |] eqn:E.
  - exists body; split; [reflexivity | exact (low_stock_alerts_response _ _ _ _ E)].
  - vm_compute in E; discriminate.
Defined.

(** C3 fails by binary64 rounding: with stock 23 and 23 units sold,
    [23 / 30] rounds above 23/30 and [int(23 / avg_daily_sales)] truncates
    29.999999999999996 to 29, while floor(23 / (23/30)) = 30.  The spec's
    example (stock 5, 60 sold) does give 2. *)
Theorem low_stock_days_rounding :
  days_until_stockout 23 23 = Ok (Some 29) /\
  (23 * recent_period_days) / 23 = 30 /\
  days_until_stockout 5 60 = Ok (Some 2) /\
  days_until_stockout 5 0 = Ok None /\
  exists a,
    get_low_stock_alerts (adb 50 23 23) 9 1000 = Ok (alert_body [a]) /\
    getitem a "days_until_stockout" = Ok (JInt 29) /\
    getitem a "current_stock" = Ok (JInt 23).
Proof.
  repeat split; try (vm_compute; reflexivity).
  eexists; split; [vm_compute; reflexivity | split; vm_compute; reflexivity].
Qed.

(** ** Further properties of [create_product] *)
Lemma create_product_cases rt data db :
  let o := create_product rt data db in
  (final o = db \/ final o = concurrent rt db \/
   exists name sku price wh q,
     final o = with_rows (concurrent rt db) name sku price wh q /\
     sku_taken (concurrent rt db) sku = false /\ getitem data "sku" = Ok sku) /\
  (status (resp o) = 201 ->
   truthy data = true /\ all_in required_fields data = Ok true /\
   body (resp o) = MCreated (next_product_id (concurrent rt db)) /\
   exists name sku price wh q,
     final o = with_rows (concurrent rt db) name sku price wh q /\
     getitem data "sku" = Ok sku).
Proof.
  cbv zeta.
  destruct (truthy data) eqn:Ht;
    [| unfold create_product; rewrite Ht; simpl;
       split; [left; reflexivity | discriminate]].
  destruct (all_in required_fields data) as [[|] |] eqn:Ha;
    [| unfold create_product; rewrite Ht, Ha; simpl;
       split; [left; reflexivity | discriminate] ..].
  unfold create_product; rewrite Ht, Ha; cbn [negb].
  run_cases;
    first [ split; [left; reflexivity | discriminate]
          | split; [right; left; reflexivity | discriminate]
          | split;
            [ right; right; do 5 eexists; split; [reflexivity | split; first [assumption | reflexivity]]
            | first [ discriminate
                    | intros _; repeat split; first [assumption | reflexivity
                        | do 5 eexists; split; reflexivity] ] ] ].
Qed.

Lemma sku_taken_with_rows st name sku price wh q :
  json_eqb sku sku = true -> sku_taken (with_rows st name sku price wh q) sku = true.
Proof.
  intro H; unfold sku_taken, with_rows; simpl.
  rewrite existsb_app; simpl; rewrite H; apply orb_true_r.
Qed.

(** Sending the same request again after a successful creation is answered
    409 with the SKU, at the SKU lookup, and leaves the store unchanged. *)
Theorem create_product_repeat_conflict rt rt' data db s :
  status (resp (create_product rt data db)) = 201 ->
  getitem data "sku" = Ok (JStr s) -> db_fault rt' OpQuery = None ->
  let db' := final (create_product rt data db) in
  create_product rt' data db' = mkOutcome (mkResponse 409 (MSkuExists (JStr s))) db' [EvQuery].
Proof.
  intros H201 Hs Hq; cbv zeta.
  destruct (create_product_cases rt data db) as [_ H].
  destruct (H H201) as (Ht & Ha & _ & name & sku & price & wh & q & Hf & Hs').
  rewrite Hs in Hs'; injection Hs' as <-.
  rewrite Hf.
  assert (Htk : sku_taken (with_rows (concurrent rt db) name (JStr s) price wh q) (JStr s) = true)
    by (apply sku_taken_with_rows; simpl; apply String.eqb_refl).
  unfold create_product; rewrite Ht, Ha; cbn [negb].
  unfold run_try, try_block, query_first_by_sku, read_fault, bindM, lift, log, get_session, ret.
  rewrite Hs, Hq; simpl; rewrite Htk; reflexivity.
Qed.

Lemma create_product_repeat_conflict_witness :
  status (resp (create_product rt0 req1 db0)) = 201 /\ getitem req1 "sku" = Ok (JStr "S1") /\
  db_fault rt0 OpQuery = None /\
  create_product rt0 req1 db1 = mkOutcome (mkResponse 409 (MSkuExists (JStr "S1"))) db1 [EvQuery].
Proof.
  assert (H1 : status (resp (create_product rt0 req1 db0)) = 201) by (vm_compute; reflexivity).
  assert (H2 : getitem req1 "sku" = Ok (JStr "S1")) by (vm_compute; reflexivity).
  assert (H3 : db_fault rt0 OpQuery = None) by reflexivity.
  split; [exact H1 | split; [exact H2 | split; [exact H3 |]]].
  exact (create_product_repeat_conflict rt0 rt0 req1 db0 "S1" H1 H2 H3).
Defined.

Lemma ForallOrdPairs_snoc {A} (R : A -> A -> Prop) l x :
  ForallOrdPairs R l -> Forall (fun a => R a x) l -> ForallOrdPairs R (l ++ [x]).
Proof.
  induction l as [| a l IH]; simpl; intros H1 H2.
  - constructor; constructor.
  - inversion H1; subst; inversion H2; subst.
    constructor.
    + apply Forall_app; split; [assumption | constructor; [assumption | constructor]].
    + apply IH; assumption.
Qed.

(** A request never stores a second product with an existing SKU: if the
    store and the store left by the other transactions have unique SKUs, so
    does the store after the request. *)
Theorem create_product_keeps_skus_unique rt data db :
  skus_unique db -> skus_unique (concurrent rt db) ->
  skus_unique (final (create_product rt data db)).
Proof.
  intros H1 H2.
  destruct (create_product_cases rt data db)
    as [[-> | [-> | (name & sku & price & wh & q & -> & Htk & _)]] _]; try assumption.
  unfold skus_unique, with_rows; simpl.
  apply ForallOrdPairs_snoc; [exact H2 |].
  apply Forall_forall; intros p Hin; simpl.
  destruct (json_eqb (p_sku p) sku) eqn:E; [| reflexivity].
  assert (Hex : sku_taken (concurrent rt db) sku = true)
    by (apply existsb_exists; exists p; split; assumption).
  congruence.
Qed.

Lemma create_product_keeps_skus_unique_witness :
  skus_unique db1 /\ skus_unique (concurrent rt0 db1) /\
  skus_unique (final (create_product rt0 req2 db1)).
Proof.
  assert (H : skus_unique db1) by (vm_compute; repeat constructor).
  split; [exact H | split; [exact H |]].
  exact (create_product_keeps_skus_unique rt0 req2 db1 H H).
Defined.

(** Assume every inventory row references a stored product, both in the
    store before a request and in the store left by concurrent
    transactions.  Then it still does after the request.  A run either
    leaves one of those two stores, or adds exactly one Product and one
    Inventory row whose product_id is that Product's id, the id flushed in
    the same transaction; a 201 answer returns that id. *)
Theorem create_product_keeps_refs rt data db :
  refs_ok db -> refs_ok (concurrent rt db) ->
  let o := create_product rt data db in
  refs_ok (final o) /\
  (final o = db \/ final o = concurrent rt db \/
   exists p i, products (final o) = products (concurrent rt db) ++ [p] /\
               inventories (final o) = inventories (concurrent rt db) ++ [i] /\
               i_product_id i = p_id p) /\
  (status (resp o) = 201 ->
   exists p i, products (final o) = products (concurrent rt db) ++ [p] /\
               inventories (final o) = inventories (concurrent rt db) ++ [i] /\
               i_product_id i = p_id p /\ body (resp o) = MCreated (p_id p)).
Proof.
  intros H1 H2; cbv zeta.
  destruct (create_product_cases rt data db) as [Hf H201].
  split; [| split].
  - destruct Hf as [-> | [-> | (name & sku & price & wh & q & -> & _ & _)]]; try assumption.
    unfold refs_ok, with_rows in *; simpl.
    apply Forall_app; split.
    + eapply Forall_impl; [| exact H2].
      intros i Hi; rewrite map_app; apply in_or_app; left; exact Hi.
    + constructor; [| constructor].
      rewrite map_app; apply in_or_app; right; left; reflexivity.
  - destruct Hf as [-> | [-> | (name & sku & price & wh & q & -> & _ & _)]];
      [left; reflexivity | right; left; reflexivity | right; right].
    do 2 eexists; split; [reflexivity | split; reflexivity].
  - intros Hs; destruct (H201 Hs) as (_ & _ & Hb & name & sku & price & wh & q & -> & _).
    do 2 eexists; split; [reflexivity | split; [reflexivity | split; [reflexivity | exact Hb]]].
Qed.

Lemma create_product_keeps_refs_witness :
  refs_ok db1 /\ refs_ok (concurrent rt0 db1) /\
  (let o := create_product rt0 req2 db1 in
   refs_ok (final o) /\
   (final o = db1 \/ final o = concurrent rt0 db1 \/
    exists p i, products (final o) = products (concurrent rt0 db1) ++ [p] /\
                inventories (final o) = inventories (concurrent rt0 db1) ++ [i] /\
                i_product_id i = p_id p) /\
   (status (resp o) = 201 ->
    exists p i, products (final o) = products (concurrent rt0 db1) ++ [p] /\
                inventories (final o) = inventories (concurrent rt0 db1) ++ [i] /\
                i_product_id i = p_id p /\ body (resp o) = MCreated (p_id p))).
Proof.
  assert (H : refs_ok db1) by (vm_compute; repeat constructor).
  split; [exact H | split; [exact H |]].
  exact (create_product_keeps_refs rt0 req2 db1 H H).
Defined.

(** Ids stay below their sequences, and a 201 answer returns the id of a
    product that is now stored and was not stored before. *)
Theorem create_product_fresh_ids rt data db :
  ids_below db -> ids_below (concurrent rt db) ->
  let o := create_product rt data db in
  ids_below (final o) /\
  (status (resp o) = 201 ->
   exists pid, body (resp o) = MCreated pid /\
     ~ In pid (map p_id (products (concurrent rt db))) /\
     In pid (map p_id (products (final o)))).
Proof.
  intros H1 H2; cbv zeta.
  destruct (create_product_cases rt data db) as [Hf H201].
  split.
  - destruct Hf as [-> | [-> | (name & sku & price & wh & q & -> & _ & _)]]; try assumption.
    destruct H2 as [Hp Hi]; unfold with_rows; split; simpl;
      apply Forall_app; split;
      try (constructor; [simpl; lia | constructor]).
    + eapply Forall_impl; [| exact Hp]; simpl; intros; lia.
    + eapply Forall_impl; [| exact Hi]; simpl; intros; lia.
  - intro Hs; destruct (H201 Hs) as (_ & _ & Hb & name & sku & price & wh & q & Hfin & _).
    exists (next_product_id (concurrent rt db)); split; [exact Hb | split].
    + intro Hin; apply in_map_iff in Hin as [p [Hp Hin]].
      destruct H2 as [Hlt _]; rewrite Forall_forall in Hlt; specialize (Hlt p Hin); lia.
    + rewrite Hfin; unfold with_rows; simpl; rewrite map_app; apply in_or_app; right; left; reflexivity.
Qed.

Lemma create_product_fresh_ids_witness :
  ids_below db1 /\ ids_below (concurrent rt0 db1) /\
  let o := create_product rt0 req2 db1 in
  ids_below (final o) /\
  (status (resp o) = 201 ->
   exists pid, body (resp o) = MCreated pid /\
     ~ In pid (map p_id (products (concurrent rt0 db1))) /\
     In pid (map p_id (products (final o)))).
Proof.
  assert (H : ids_below db1) by (vm_compute; split; repeat constructor).
  split; [exact H | split; [exact H |]].
  exact (create_product_fresh_ids rt0 req2 db1 H H).
Defined.

(** [all] over [in] raises only when [in] does. *)
Lemma all_in_total fs data :
  (forall k, exists b, contains k data = Ok b) -> exists b, all_in fs data = Ok b.
Proof.
  intro Hc; induction fs as [| f fs IH]; simpl; [eauto |].
  destruct (Hc f) as [b Hb]; rewrite Hb; simpl.
  destruct b; [exact IH | eauto].
Qed.

(** A body that is not a JSON object never writes anything.  A falsy body
    gets 400 "Missing required fields".  A truthy list or string gets 400:
    "Missing required fields" when ['f' in data] fails for a field, and
    "Invalid data type" otherwise, from [data['sku']].  A truthy number or
    boolean crashes the key check and gets 500. *)
Theorem create_product_non_dict_body rt data db :
  (forall kvs, data <> JObj kvs) ->
  let o := create_product rt data db in
  final o = db /\ forallb (fun e => negb (is_write e)) (trace o) = true /\
  (truthy data = false -> resp o = mkResponse 400 MMissing) /\
  (truthy data = true ->
   match data with
   | JList _ | JStr _ => resp o = mkResponse 400 MMissing \/ resp o = mkResponse 400 MInvalidType
   | _ => resp o = mkResponse 500 MServerError
   end).
Proof.
  intro Hnd; cbv zeta.
  destruct data as [| b | z | f | str | l | kvs];
    [.. | exfalso; exact (Hnd kvs eq_refl)];
    destruct (truthy _) eqn:Ht;
    unfold create_product; rewrite Ht; cbn [negb];
    try (repeat split; intros; discriminate || reflexivity).
  all: destruct (all_in required_fields _) as [[|] |] eqn:Ha;
    try (vm_compute in Ha; discriminate Ha);
    try (match goal with
         | Ha : all_in _ ?d = Err _ |- _ =>
             destruct (all_in_total required_fields d) as [b Hb];
             [intro k; eexists; reflexivity | congruence]
         end).
  all: unfold run_try, try_block, bindM, lift; simpl.
  all: repeat split; intros;
    first [discriminate | reflexivity | left; reflexivity | right; reflexivity].
Qed.

Lemma create_product_non_dict_body_witness :
  (forall kvs, req_list <> JObj kvs) /\
  let o := create_product rt0 req_list db1 in
  final o = db1 /\ forallb (fun e => negb (is_write e)) (trace o) = true /\
  (truthy req_list = false -> resp o = mkResponse 400 MMissing) /\
  (truthy req_list = true ->
   resp o = mkResponse 400 MMissing \/ resp o = mkResponse 400 MInvalidType).
Proof.
  assert (H : forall kvs, req_list <> JObj kvs) by (intros kvs Heq; discriminate Heq).
  split; [exact H | exact (create_product_non_dict_body rt0 req_list db1 H)].
Defined.


Lemma fresh_pid_untaken st st' wh :
  inventories st' = inventories st -> refs_ok st -> ids_below st ->
  inventory_taken st' (next_product_id st) wh = false.
Proof.
  intros Heq Hr [Hp _]; unfold inventory_taken; rewrite Heq.
  destruct (existsb _ _) eqn:E; [| reflexivity].
  apply existsb_exists in E as [i [Hin Hm]].
  apply andb_true_iff in Hm as [Hm _]; apply Z.eqb_eq in Hm.
  unfold refs_ok in Hr; rewrite Forall_forall in Hr.
  apply Hr, in_map_iff in Hin as [p [Hpid Hp']].
  rewrite Forall_forall in Hp; specialize (Hp p Hp'); lia.
Qed.

(** Python's conversions and [data[key]] never raise a database error. *)
Lemma py_float_no_integrity s2f v : py_float s2f v <> Err IntegrityError.
Proof.
  destruct v; simpl; try discriminate.
  - unfold int_to_float; destruct (PrimFloat.is_infinity _); discriminate.
  - destruct (s2f s); discriminate.
Qed.

Lemma py_int_no_integrity s2i v : py_int s2i v <> Err IntegrityError.
Proof.
  destruct v; simpl; try discriminate.
  - unfold float_trunc; destruct (Prim2SF f); discriminate.
  - destruct (s2i s); discriminate.
Qed.

Lemma getitem_no_integrity data k : getitem data k <> Err IntegrityError.
Proof.
  destruct data; simpl; try discriminate.
  destruct (find _ _) as [[] |]; discriminate.
Qed.

(** If the stores keep their references and id sequences and the database
    raises no other constraint violation, a 409 "Database integrity error"
    means that the SKU was free at the lookup and was taken by a concurrent
    transaction before the insert. *)
Theorem create_product_integrity_means_sku rt data db sku :
  refs_ok (concurrent rt db) -> ids_below (concurrent rt db) ->
  (forall op, db_fault rt op <> Some IntegrityError) ->
  getitem data "sku" = Ok sku ->
  resp (create_product rt data db) = mkResponse 409 MIntegrity ->
  sku_taken db sku = false /\ sku_taken (concurrent rt db) sku = true.
Proof.
  intros Hr Hi Hnf Hs.
  run_cases; intros H409; try discriminate;
    try match goal with
        | H : db_fault rt _ = Some IntegrityError |- _ => exfalso; exact (Hnf _ H)
        | H : py_float _ _ = Err IntegrityError |- _ => exfalso; exact (py_float_no_integrity _ _ H)
        | H : py_int _ _ = Err IntegrityError |- _ => exfalso; exact (py_int_no_integrity _ _ H)
        | H : getitem _ _ = Err IntegrityError |- _ => exfalso; exact (getitem_no_integrity _ _ H)
        | H : inventory_taken ?st' _ ?wh = true |- _ =>
            rewrite (fresh_pid_untaken (concurrent rt db) st' wh eq_refl Hr Hi) in H; discriminate
        end.
  match goal with H : Ok _ = Ok sku |- _ => injection H as <- end.
  split; assumption.
Qed.

Lemma create_product_integrity_means_sku_witness :
  refs_ok (concurrent rt_race db0) /\ ids_below (concurrent rt_race db0) /\
  (forall op, db_fault rt_race op <> Some IntegrityError) /\
  getitem req1 "sku" = Ok (JStr "S1") /\
  resp (create_product rt_race req1 db0) = mkResponse 409 MIntegrity /\
  sku_taken db0 (JStr "S1") = false /\ sku_taken (concurrent rt_race db0) (JStr "S1") = true.
Proof.
  assert (H1 : refs_ok (concurrent rt_race db0)) by (vm_compute; repeat constructor).
  assert (H2 : ids_below (concurrent rt_race db0)) by (vm_compute; split; repeat constructor).
  assert (H3 : forall op, db_fault rt_race op <> Some IntegrityError) by (intros op Heq; discriminate Heq).
  assert (H4 : getitem req1 "sku" = Ok (JStr "S1")) by (vm_compute; reflexivity).
  assert (H5 : resp (create_product rt_race req1 db0) = mkResponse 409 MIntegrity)
    by (vm_compute; reflexivity).
  do 5 (split; [assumption |]).
  exact (create_product_integrity_means_sku rt_race req1 db0 (JStr "S1") H1 H2 H3 H4 H5).
Defined.

(** Without database failures, and with the concurrent store consistent,
    a request that passes the key check is answered 201 exactly when its
    SKU is free at the lookup and at the insert, its price converts with
    [float()] and its initial quantity converts with [int()]. *)
Theorem create_product_success_iff rt data db sku pv qv :
  (forall op, db_fault rt op = None) ->
  refs_ok (concurrent rt db) -> ids_below (concurrent rt db) ->
  truthy data = true -> all_in required_fields data = Ok true ->
  getitem data "sku" = Ok sku -> getitem data "price" = Ok pv ->
  getitem data "initial_quantity" = Ok qv ->
  (status (resp (create_product rt data db)) = 201 <->
   sku_taken db sku = false /\ sku_taken (concurrent rt db) sku = false /\
   (exists p, py_float (str_to_float rt) pv = Ok p) /\
   (exists q, py_int (str_to_int rt) qv = Ok q)).
Proof.
  intros Hnf Hr Hi Ht Ha Hs Hp Hq.
  unfold create_product; rewrite Ht, Ha; cbn [negb].
  unf; rewrite ?Hp, ?Hq; read_fields Hs Ha; rewrite ?Hnf.
  split.
  - run_cases; intros _; repeat split; eauto.
  - intros (H1 & H2 & [p Hpf] & [q Hqi]).
    run_cases;
      first [ reflexivity | congruence
            | match goal with
              | H : inventory_taken ?st' _ ?wh = true |- _ =>
                  rewrite (fresh_pid_untaken (concurrent rt db) st' wh eq_refl Hr Hi) in H;
                  discriminate
              end ].
Qed.

Lemma create_product_success_iff_witness :
  (status (resp (create_product rt0 req2 db1)) = 201 <->
   sku_taken db1 (JStr "S2") = false /\ sku_taken (concurrent rt0 db1) (JStr "S2") = false /\
   (exists p, py_float (str_to_float rt0) (JInt 5) = Ok p) /\
   (exists q, py_int (str_to_int rt0) (JInt 1) = Ok q)).
Proof.
  apply create_product_success_iff.
  - intro op; reflexivity.
  - vm_compute; repeat constructor.
  - vm_compute; split; repeat constructor.
  - reflexivity.
  - vm_compute; reflexivity.
  - vm_compute; reflexivity.
  - vm_compute; reflexivity.
  - vm_compute; reflexivity.
Defined.

(** ** Further properties of [get_low_stock_alerts] *)

Lemma key_eqb_refl k : key_eqb k k = true.
Proof.
  destruct k as [[[[a b] c] d] e]; simpl.
  rewrite !Z.eqb_refl; simpl; apply opt_eqb_eq; reflexivity.
Qed.

Lemma add_to_groups_keys gs r :
  map (fun g : Row * Z => group_key (fst g)) (add_to_groups gs r) =
  if existsb (fun g : Row * Z => key_eqb (group_key (fst g)) (group_key r)) gs
  then map (fun g : Row * Z => group_key (fst g)) gs
  else map (fun g : Row * Z => group_key (fst g)) gs ++ [group_key r].
Proof.
  unfold add_to_groups; destruct (existsb _ gs).
  - rewrite map_map; apply map_ext; intro g; destruct (key_eqb _ _); reflexivity.
  - rewrite map_app; reflexivity.
Qed.

Lemma existsb_key gs k :
  existsb (fun g : Row * Z => key_eqb (group_key (fst g)) k) gs = true <->
  In k (map (fun g : Row * Z => group_key (fst g)) gs).
Proof.
  rewrite existsb_exists, in_map_iff; split.
  - intros [g [Hg Hk]]; exists g; split; [apply key_eqb_eq, Hk | exact Hg].
  - intros [g [<- Hg]]; exists g; split; [exact Hg | apply key_eqb_refl].
Qed.

Lemma NoDup_snoc {A} (l : list A) x : NoDup l -> ~ In x l -> NoDup (l ++ [x]).
Proof.
  induction l as [| a l IH]; simpl; intros Hl Hx.
  - constructor; [intros [] | constructor].
  - inversion Hl; subst; constructor.
    + rewrite in_app_iff; intros [H | [H | []]]; [contradiction | subst; apply Hx; left; reflexivity].
    + apply IH; [assumption | intro H; apply Hx; right; exact H].
Qed.

Lemma add_to_groups_nodup gs r :
  NoDup (map (fun g : Row * Z => group_key (fst g)) gs) ->
  NoDup (map (fun g : Row * Z => group_key (fst g)) (add_to_groups gs r)).
Proof.
  intro H; rewrite add_to_groups_keys.
  destruct (existsb _ gs) eqn:E; [exact H |].
  apply NoDup_snoc; [exact H |].
  intro Hin; apply existsb_key in Hin; congruence.
Qed.

Lemma fold_groups_nodup rows acc :
  NoDup (map (fun g : Row * Z => group_key (fst g)) acc) ->
  NoDup (map (fun g : Row * Z => group_key (fst g)) (fold_left add_to_groups rows acc)).
Proof.
  revert acc; induction rows as [| r rows IH]; simpl; intros acc H; [exact H |].
  apply IH, add_to_groups_nodup, H.
Qed.

(** The query returns each combination of inventory, product, warehouse,
    product type and supplier at most once. *)
Theorem low_stock_query_distinct_groups db c since :
  NoDup (map (fun g : Row * Z => group_key (fst g)) (low_stock_query db c since)).
Proof. apply fold_groups_nodup; constructor. Qed.

Lemma total_sold_of_cons r rows k :
  total_sold_of (r :: rows) k =
  (if key_eqb (group_key r) k then sa_quantity_sold (r_sale r) else 0) + total_sold_of rows k.
Proof. unfold total_sold_of; cbn [filter]; destruct (key_eqb (group_key r) k); cbn [map fold_right]; lia. Qed.

Lemma fold_groups_sum rows acc (f : Z * Z * Z * Z * option Z -> Z) :
  NoDup (map (fun g : Row * Z => group_key (fst g)) acc) ->
  (forall g, In g acc -> snd g = f (group_key (fst g))) ->
  (forall k, ~ In k (map (fun g : Row * Z => group_key (fst g)) acc) -> f k = 0) ->
  forall g, In g (fold_left add_to_groups rows acc) ->
  snd g = f (group_key (fst g)) + total_sold_of rows (group_key (fst g)).
Proof.
  revert acc f; induction rows as [| r rows IH]; simpl; intros acc f Hnd Hacc Hout g Hg.
  - unfold total_sold_of; simpl; rewrite (Hacc g Hg); lia.
  - set (f' := fun k => f k + (if key_eqb (group_key r) k then sa_quantity_sold (r_sale r) else 0)).
    assert (Hr : forall k, key_eqb (group_key r) k = true <-> k = group_key r).
    { intro k; split; [intro H; symmetry; apply key_eqb_eq, H | intros ->; apply key_eqb_refl]. }
    rewrite total_sold_of_cons.
    enough (snd g = f' (group_key (fst g)) + total_sold_of rows (group_key (fst g)))
      by (unfold f' in *; lia).
    apply (IH (add_to_groups acc r) f'); [apply add_to_groups_nodup, Hnd | | | exact Hg].
    + intros g0 Hg0; unfold add_to_groups in Hg0; unfold f'.
      destruct (existsb (fun g : Row * Z => key_eqb (group_key (fst g)) (group_key r)) acc) eqn:E.
      * apply in_map_iff in Hg0 as [g1 [<- Hg1]].
        destruct (key_eqb (group_key (fst g1)) (group_key r)) eqn:Ek; cbn [fst snd].
        -- apply key_eqb_eq in Ek; rewrite Ek, key_eqb_refl, (Hacc g1 Hg1), Ek; reflexivity.
        -- destruct (key_eqb (group_key r) (group_key (fst g1))) eqn:Ek';
             [apply Hr in Ek'; rewrite Ek', key_eqb_refl in Ek; discriminate |].
           rewrite (Hacc g1 Hg1); lia.
      * apply in_app_or in Hg0 as [Hg0 | [<- | []]].
        -- destruct (key_eqb (group_key r) (group_key (fst g0))) eqn:Ek.
           ++ apply Hr in Ek.
              assert (In (group_key r) (map (fun g : Row * Z => group_key (fst g)) acc))
                by (rewrite <- Ek; apply in_map_iff; exists g0; split; [reflexivity | exact Hg0]).
              apply existsb_key in H; congruence.
           ++ rewrite (Hacc g0 Hg0); lia.
        -- cbn [fst snd]; rewrite key_eqb_refl.
           rewrite Hout; [lia |].
           intro Hin; apply existsb_key in Hin; congruence.
    + intros k Hk; unfold f'.
      rewrite add_to_groups_keys in Hk.
      assert (Hk1 : ~ In k (map (fun g : Row * Z => group_key (fst g)) acc))
        by (destruct (existsb _ acc); [exact Hk | intro H; apply Hk, in_or_app; left; exact H]).
      assert (Hk2 : k <> group_key r).
      { intros ->; destruct (existsb _ acc) eqn:E.
        - apply existsb_key in E; contradiction.
        - apply Hk, in_or_app; right; left; reflexivity. }
      rewrite (Hout k Hk1).
      destruct (key_eqb (group_key r) k) eqn:Ek; [apply Hr in Ek; contradiction | reflexivity].
Qed.

(** Each group's [total_sold] is the sum of [quantity_sold] over the
    filtered joined rows that have that group's key. *)
Theorem low_stock_query_total_sold db c since g :
  In g (low_stock_query db c since) ->
  snd g = total_sold_of (filter (keep_row c since) (join_rows db)) (group_key (fst g)).
Proof.
  intro H.
  rewrite (fold_groups_sum _ [] (fun _ => 0) ltac:(constructor) ltac:(intros _ []) ltac:(reflexivity) g H).
  reflexivity.
Qed.

Lemma low_stock_query_total_sold_witness :
  exists g, In g (low_stock_query (adb 10 5 60) 9 0) /\
  snd g = total_sold_of (filter (keep_row 9 0) (join_rows (adb 10 5 60))) (group_key (fst g)).
Proof.
  destruct (low_stock_query (adb 10 5 60) 9 0) as [| g rest] eqn:E.
  - vm_compute in E; discriminate E.
  - exists g; split; [left; reflexivity |].
    apply low_stock_query_total_sold; rewrite E; left; reflexivity.
Defined.

Lemma filter_nil_false {A} (p : A -> bool) l x :
  filter p l = [] -> In x l -> p x = false.
Proof.
  intros H Hin; destruct (p x) eqn:E; [| reflexivity].
  assert (Hf : In x (filter p l)) by (apply filter_In; split; assumption).
  rewrite H in Hf; contradiction.
Qed.

Lemma filter_all_false {A} (p : A -> bool) l :
  (forall x, In x l -> p x = false) -> filter p l = [].
Proof.
  induction l as [| a l IH]; simpl; intro H; [reflexivity |].
  rewrite (H a (or_introl eq_refl)); apply IH; intros x Hx; apply H; right; exact Hx.
Qed.

(** A company with no warehouse, or a store with no sale in the last 30
    days, gets an empty alert list with [total_alerts] 0. *)
Theorem low_stock_alerts_empty db c now :
  Forall (fun w => wh_company_id w <> c) (warehouse_t db) \/
  Forall (fun sa => sa_sale_date sa < now - recent_period_days * seconds_per_day) (sales_t db) ->
  get_low_stock_alerts db c now = Ok (alert_body []).
Proof.
  intro H.
  assert (Hnil : filter (keep_row c (now - recent_period_days * seconds_per_day)) (join_rows db) = []).
  { apply filter_all_false; intros r Hr.
    apply join_rows_spec in Hr
      as (i & p & w & t & su & sa & -> & _ & _ & _ & Hw & _ & _ & _ & _ & Hsa & _ & _).
    unfold keep_row; cbn [r_wh r_sale r_inv r_pt].
    destruct H as [H | H]; rewrite Forall_forall in H.
    - specialize (H w Hw); apply Z.eqb_neq in H; rewrite H; reflexivity.
    - specialize (H sa Hsa).
      assert (Hl : Z.leb (now - recent_period_days * seconds_per_day) (sa_sale_date sa) = false)
        by (apply Z.leb_gt; exact H).
      rewrite Hl, andb_false_r; reflexivity. }
  unfold get_low_stock_alerts, low_stock_query; cbv zeta; rewrite Hnil; reflexivity.
Qed.

Lemma low_stock_alerts_empty_witness :
  Forall (fun w => wh_company_id w <> 8) (warehouse_t (adb 10 5 60)) /\
  get_low_stock_alerts (adb 10 5 60) 8 1000 = Ok (alert_body []).
Proof.
  assert (H : Forall (fun w => wh_company_id w <> 8) (warehouse_t (adb 10 5 60)))
    by (apply Forall_cons; [simpl; lia | apply Forall_nil]).
  split; [exact H | exact (low_stock_alerts_empty _ 8 1000 (or_introl H))].
Defined.

(** Every alert shows a current_stock at or below its threshold, and the
    id and name of a warehouse of the requested company. *)
Theorem low_stock_alert_fields db c now body :
  get_low_stock_alerts db c now = Ok body ->
  exists alerts, body = alert_body alerts /\
  Forall (fun a => exists s t w,
     getitem a "current_stock" = Ok (JInt s) /\ getitem a "threshold" = Ok (JInt t) /\ s <= t /\
     In w (warehouse_t db) /\ wh_company_id w = c /\
     getitem a "warehouse_id" = Ok (JInt (wh_id w)) /\
     getitem a "warehouse_name" = Ok (JStr (wh_name w))) alerts.
Proof.
  unfold get_low_stock_alerts; cbv zeta.
  destruct (format_all _) as [alerts |] eqn:Hf; simpl; [| discriminate].
  intro H; injection H as <-.
  apply format_all_forall2 in Hf.
  exists alerts; split; [reflexivity |].
  apply Forall_forall; intros a Ha.
  destruct (Forall2_in_r _ _ _ _ Hf Ha) as [[r tot] [Hg Hfmt]].
  apply format_alert_shape in Hfmt as [d [_ ->]].
  destruct (group_rows_spec (filter (keep_row c (now - recent_period_days * seconds_per_day))
                                    (join_rows db))) as [Hg1 _].
  apply Hg1 in Hg; simpl in Hg; apply filter_In in Hg as [Hj Hk].
  apply join_rows_spec in Hj as (i & p & w & t & su & sa & -> & _ & _ & _ & Hw & Hiw & _).
  unfold keep_row in Hk; simpl in Hk.
  apply andb_true_iff in Hk as [Hk Hq]; apply andb_true_iff in Hk as [Hc _].
  apply Z.eqb_eq in Hc; apply Z.leb_le in Hq.
  exists (inv_quantity i), (pt_low_stock_threshold t), w.
  repeat split; try assumption; reflexivity.
Qed.

Lemma low_stock_alert_fields_witness :
  exists body, get_low_stock_alerts (adb 10 5 60) 9 1000 = Ok body /\
  exists alerts, body = alert_body alerts /\
  Forall (fun a => exists s t w,
     getitem a "current_stock" = Ok (JInt s) /\ getitem a "threshold" = Ok (JInt t) /\ s <= t /\
     In w (warehouse_t (adb 10 5 60)) /\ wh_company_id w = 9 /\
     getitem a "warehouse_id" = Ok (JInt (wh_id w)) /\
     getitem a "warehouse_name" = Ok (JStr (wh_name w))) alerts.
Proof.
  destruct (get_low_stock_alerts (adb 10 5 60) 9 1000) as [body |] eqn:E.
  - exists body; split; [reflexivity | exact (low_stock_alert_fields _ _ _ _ E)].
  - vm_compute in E; discriminate E.
Defined.

(** When the product has a supplier_id, the alert's supplier object carries
    the id, name and contact email of a stored supplier with that id.  When
    no supplier has that id, every field of the object is null. *)
Theorem low_stock_alert_supplier db c now body :
  get_low_stock_alerts db c now = Ok body ->
  exists alerts, body = alert_body alerts /\
  Forall2 (fun g a => forall k, prod_supplier_id (r_prod (fst g)) = Some k ->
     (exists s, In s (supplier_t db) /\ sup_id s = k /\
        getitem a "supplier" = Ok (JObj [("id", JInt k); ("name", JStr (sup_name s));
                                         ("contact_email", JStr (sup_contact_email s))]%string)) \/
     (Forall (fun s => sup_id s <> k) (supplier_t db) /\
        getitem a "supplier" =
          Ok (JObj [("id", JNull); ("name", JNull); ("contact_email", JNull)]%string)))
    (low_stock_query db c (now - recent_period_days * seconds_per_day)) alerts.
Proof.
  unfold get_low_stock_alerts; cbv zeta.
  destruct (format_all _) as [alerts |] eqn:Hf; simpl; [| discriminate].
  intro H; injection H as <-.
  apply format_all_forall2 in Hf.
  exists alerts; split; [reflexivity |].
  apply (Forall2_strengthen _ _ _ _ Hf).
  intros [r tot] a Hin Hfmt k Hk.
  apply format_alert_shape in Hfmt as [d [_ ->]].
  destruct (group_rows_spec (filter (keep_row c (now - recent_period_days * seconds_per_day))
                                    (join_rows db))) as [Hg1 _].
  apply Hg1 in Hin; simpl in Hin; apply filter_In in Hin as [Hj _].
  apply join_rows_spec in Hj as (i & p & w & t & su & sa & -> & _ & _ & _ & _ & _ & _ & _ & Hsu & _).
  simpl in Hk |- *.
  unfold supplier_of in Hsu; rewrite Hk in Hsu.
  destruct (filter (fun s => opt_eqb (Some k) (Some (sup_id s))) (supplier_t db)) as [| s0 ss] eqn:E.
  - destruct Hsu as [<- | []].
    right; split; [| reflexivity].
    apply Forall_forall; intros s Hs Heq.
    pose proof (filter_nil_false _ _ _ E Hs) as Hfalse; cbv beta in Hfalse.
    rewrite Heq in Hfalse; simpl in Hfalse; rewrite Z.eqb_refl in Hfalse; discriminate.
  - apply in_map_iff in Hsu as [s [<- Hs]].
    rewrite <- E in Hs; apply filter_In in Hs as [Hs Heq].
    apply opt_eqb_eq in Heq; injection Heq as Heq.
    left; exists s; split; [exact Hs | split; [symmetry; exact Heq |]].
    simpl; rewrite Heq; reflexivity.
Qed.

Lemma low_stock_alert_supplier_witness :
  exists body, get_low_stock_alerts adb_sup 9 1000 = Ok body /\
  exists alerts, body = alert_body alerts /\
  Forall2 (fun g a => forall k, prod_supplier_id (r_prod (fst g)) = Some k ->
     (exists s, In s (supplier_t adb_sup) /\ sup_id s = k /\
        getitem a "supplier" = Ok (JObj [("id", JInt k); ("name", JStr (sup_name s));
                                         ("contact_email", JStr (sup_contact_email s))]%string)) \/
     (Forall (fun s => sup_id s <> k) (supplier_t adb_sup) /\
        getitem a "supplier" =
          Ok (JObj [("id", JNull); ("name", JNull); ("contact_email", JNull)]%string)))
    (low_stock_query adb_sup 9 (1000 - recent_period_days * seconds_per_day)) alerts.
Proof.
  destruct (get_low_stock_alerts adb_sup 9 1000) as [body |] eqn:E.
  - exists body; split; [reflexivity | exact (low_stock_alert_supplier _ _ _ _ E)].
  - vm_compute in E; discriminate E.
Defined.

Lemma filter_flat_map {A B} (p : B -> bool) (f : A -> list B) l :
  filter p (flat_map f l) = flat_map (fun x => filter p (f x)) l.
Proof. induction l as [| x l IH]; simpl; [reflexivity | rewrite filter_app, IH; reflexivity]. Qed.

Lemma flat_map_filter {A B} (q : A -> bool) (g : A -> list B) l :
  flat_map g (filter q l) = flat_map (fun x => if q x then g x else []) l.
Proof. induction l as [| x l IH]; simpl; [| destruct (q x); simpl; rewrite IH]; reflexivity. Qed.

Lemma join_rows_filter_sales db q :
  join_rows (mkDB (inventory_t db) (product_t db) (warehouse_t db) (product_type_t db)
                  (supplier_t db) (filter q (sales_t db))) =
  filter (fun r => q (r_sale r)) (join_rows db).
Proof.
  unfold join_rows; cbn [inventory_t product_t warehouse_t product_type_t supplier_t sales_t].
  rewrite filter_flat_map; apply flat_map_ext; intro i.
  rewrite filter_flat_map; apply flat_map_ext; intro p.
  destruct (Z.eqb (inv_product_id i) (prod_id p)); [| reflexivity].
  rewrite filter_flat_map; apply flat_map_ext; intro w.
  destruct (Z.eqb (inv_warehouse_id i) (wh_id w)); [| reflexivity].
  rewrite filter_flat_map; apply flat_map_ext; intro t.
  destruct (opt_eqb (prod_product_type_id p) (Some (pt_id t))); [| reflexivity].
  rewrite filter_flat_map; apply flat_map_ext; intro su.
  rewrite filter_flat_map, flat_map_filter; apply flat_map_ext; intro sa.
  destruct (q sa) eqn:Eq, (_ && _); simpl; rewrite ?Eq; reflexivity.
Qed.

Lemma filter_filter_andb {A} (p q : A -> bool) l :
  filter p (filter q l) = filter (fun x => q x && p x) l.
Proof. induction l as [| x l IH]; simpl; [| destruct (q x); simpl; rewrite ?IH]; reflexivity. Qed.

Lemma alerts_old_sales_filtered db c now :
  let since := now - recent_period_days * seconds_per_day in
  get_low_stock_alerts
    (mkDB (inventory_t db) (product_t db) (warehouse_t db) (product_type_t db) (supplier_t db)
          (filter (fun sa => Z.leb since (sa_sale_date sa)) (sales_t db))) c now =
  get_low_stock_alerts db c now.
Proof.
  cbv zeta; unfold get_low_stock_alerts, low_stock_query; cbv zeta.
  rewrite join_rows_filter_sales, filter_filter_andb.
  f_equal; f_equal; f_equal.
  apply filter_ext; intro r; unfold keep_row.
  destruct (Z.leb _ (sa_sale_date (r_sale r))), (Z.eqb _ c), (Z.leb (inv_quantity _) _); reflexivity.
Qed.

(** Sales dated before the 30-day window do not affect the response: two
    sales tables that agree on the window give the same answer. *)
Theorem low_stock_alerts_window_only db sales c now :
  let since := now - recent_period_days * seconds_per_day in
  filter (fun sa => Z.leb since (sa_sale_date sa)) sales =
  filter (fun sa => Z.leb since (sa_sale_date sa)) (sales_t db) ->
  get_low_stock_alerts
    (mkDB (inventory_t db) (product_t db) (warehouse_t db) (product_type_t db) (supplier_t db)
          sales) c now =
  get_low_stock_alerts db c now.
Proof.
  cbv zeta; intro H.
  rewrite <- (alerts_old_sales_filtered db c now); cbv zeta; rewrite <- H.
  symmetry; exact (alerts_old_sales_filtered
           (mkDB (inventory_t db) (product_t db) (warehouse_t db) (product_type_t db)
                 (supplier_t db) sales) c now).
Qed.

Lemma low_stock_alerts_window_only_witness :
  let db := adb 10 5 60 in
  let sales := sales_t db ++ [mkSalesActivity 7 3 (-3000000) 500] in
  filter (fun sa => Z.leb (1000 - recent_period_days * seconds_per_day) (sa_sale_date sa)) sales =
  filter (fun sa => Z.leb (1000 - recent_period_days * seconds_per_day) (sa_sale_date sa))
         (sales_t db) /\
  get_low_stock_alerts
    (mkDB (inventory_t db) (product_t db) (warehouse_t db) (product_type_t db) (supplier_t db)
          sales) 9 1000 =
  get_low_stock_alerts db 9 1000.
Proof.
  cbv zeta.
  assert (H : filter (fun sa => Z.leb (1000 - recent_period_days * seconds_per_day) (sa_sale_date sa))
                (sales_t (adb 10 5 60) ++ [mkSalesActivity 7 3 (-3000000) 500]) =
              filter (fun sa => Z.leb (1000 - recent_period_days * seconds_per_day) (sa_sale_date sa))
                (sales_t (adb 10 5 60))) by (vm_compute; reflexivity).
  split; [exact H | exact (low_stock_alerts_window_only (adb 10 5 60) _ 9 1000 H)].
Defined.

Lemma filter_uniform {A B} (q : B -> bool) (proj : A -> B) (b : B) l :
  (forall x, In x l -> proj x = b) ->
  filter (fun x => q (proj x)) l = if q b then l else [].
Proof.
  intro H; induction l as [| x l IH]; simpl; [destruct (q b); reflexivity |].
  rewrite (H x (or_introl eq_refl)), IH by (intros y Hy; apply H; right; exact Hy).
  destruct (q b); reflexivity.
Qed.

Lemma join_rows_filter_warehouses db q :
  join_rows (mkDB (inventory_t db) (product_t db) (filter q (warehouse_t db)) (product_type_t db)
                  (supplier_t db) (sales_t db)) =
  filter (fun r => q (r_wh r)) (join_rows db).
Proof.
  unfold join_rows; cbn [inventory_t product_t warehouse_t product_type_t supplier_t sales_t].
  rewrite filter_flat_map; apply flat_map_ext; intro i.
  rewrite filter_flat_map; apply flat_map_ext; intro p.
  destruct (Z.eqb (inv_product_id i) (prod_id p)); [| reflexivity].
  rewrite filter_flat_map, flat_map_filter; apply flat_map_ext; intro w.
  destruct (Z.eqb (inv_warehouse_id i) (wh_id w)); [| destruct (q w); reflexivity].
  symmetry; apply filter_uniform.
  intros r Hr.
  repeat match goal with
         | H : In r (flat_map _ _) |- _ => apply in_flat_map in H as [? [_ H]]
         | H : In r (if ?b then _ else _) |- _ => destruct b
         | H : In r [] |- _ => destruct H
         | H : In r [_] |- _ => destruct H as [<- | []]; reflexivity
         end.
Qed.

Lemma alerts_other_companies_filtered db c now :
  get_low_stock_alerts
    (mkDB (inventory_t db) (product_t db)
          (filter (fun w => Z.eqb (wh_company_id w) c) (warehouse_t db))
          (product_type_t db) (supplier_t db) (sales_t db)) c now =
  get_low_stock_alerts db c now.
Proof.
  unfold get_low_stock_alerts, low_stock_query; cbv zeta.
  rewrite join_rows_filter_warehouses, filter_filter_andb.
  f_equal; f_equal; f_equal.
  apply filter_ext; intro r; unfold keep_row.
  destruct (Z.eqb _ c), (Z.leb _ (sa_sale_date (r_sale r))), (Z.leb (inv_quantity _) _); reflexivity.
Qed.

(** Warehouses of other companies do not affect the response: two
    warehouse tables that agree on the requested company's warehouses give
    the same answer. *)
Theorem low_stock_alerts_company_isolation db ws c now :
  filter (fun w => Z.eqb (wh_company_id w) c) ws =
  filter (fun w => Z.eqb (wh_company_id w) c) (warehouse_t db) ->
  get_low_stock_alerts
    (mkDB (inventory_t db) (product_t db) ws (product_type_t db) (supplier_t db) (sales_t db)) c now =
  get_low_stock_alerts db c now.
Proof.
  intro H.
  rewrite <- (alerts_other_companies_filtered db c now), <- H.
  symmetry; exact (alerts_other_companies_filtered
           (mkDB (inventory_t db) (product_t db) ws (product_type_t db)
                 (supplier_t db) (sales_t db)) c now).
Qed.

Lemma low_stock_alerts_company_isolation_witness :
  let db := adb 10 5 60 in
  let ws := warehouse_t db ++ [mkWarehouse 4 "Other" 8] in
  filter (fun w => Z.eqb (wh_company_id w) 9) ws =
  filter (fun w => Z.eqb (wh_company_id w) 9) (warehouse_t db) /\
  get_low_stock_alerts
    (mkDB (inventory_t db) (product_t db) ws (product_type_t db) (supplier_t db) (sales_t db)) 9 1000 =
  get_low_stock_alerts db 9 1000.
Proof.
  cbv zeta.
  assert (H : filter (fun w => Z.eqb (wh_company_id w) 9)
                (warehouse_t (adb 10 5 60) ++ [mkWarehouse 4 "Other" 8]) =
              filter (fun w => Z.eqb (wh_company_id w) 9) (warehouse_t (adb 10 5 60)))
    by (vm_compute; reflexivity).
  split; [exact H | exact (low_stock_alerts_company_isolation (adb 10 5 60) _ 9 1000 H)].
Defined.
